(** * change-timeseries: timestamp tables, calendar parts and charts

    A shallow embedding of [change-timeseries.py].  The script is a thin
    layer over pandas and matplotlib, so the development has three parts:

    - a model of the Python run-time notions the script relies on
      (exceptions with their messages, [None], standard output, the
      pyplot canvas);
    - a model of the pandas fragment it calls: nanosecond timestamps and
      their calendar fields, series with their missing values (NaN, NaT),
      frames, [to_datetime], [date_range];
    - the script's own functions, written over these, one definition per
      Python function and under the same name.

    What pandas does with free-form text (parsing a date string, inferring
    the date format of a column, a frequency alias, a CSV file), the order
    [value_counts] gives to equal counts, and what matplotlib accepts is
    not fixed here: it is the [Runtime] interface, and general statements
    hold for every instance of it.  A reference instance (ISO dates,
    fixed-length and weekly frequencies, plain comma-separated text with a
    header line) serves the concrete scenarios.  Time zones, the index of
    a frame and duplicate column labels are outside the model. *)

From Stdlib Require Import ZArith List String Ascii Bool Lia.
Import ListNotations.

Open Scope string_scope.
Open Scope Z_scope.

(* ===================================================================== *)
(** ** Python: exceptions and results *)

(** The exception classes that occur: the four the script raises itself
    and the ones coming out of the libraries and of list indexing. *)
Inductive exn_class :=
| FileNotFoundError
| ValueError
| KeyError
| TypeError
| IndexError
| AttributeError
| EmptyDataError
| ParserError
| DateParseError
| OutOfBoundsDatetime.

(** An exception is its class and its message.  The script's messages are
    Russian f-strings; each is a constructor carrying what the f-string
    interpolates. *)
Inductive exn :=
| Raise (c : exn_class) (m : message)
with message :=
| FileMissing (path : string)             (* "Файл не найден: {path}" *)
| CsvReadFailed (cause : exn)             (* "Ошибка чтения CSV: {e}" *)
| OneColumnExpected                       (* "Ожидался ровно один столбец ..." *)
| TimestampColumnAbsent                   (* "Отсутствует обязательный столбец 'timestamp'." *)
| DatetimeConversionFailed (cause : exn)  (* "Ошибка преобразования в datetime: {e}" *)
| TimestampNotDatetime                    (* "Столбец 'timestamp' должен быть формата datetime." *)
| ColumnsAbsent (missing : list string)   (* "Отсутствуют обязательные столбцы: {missing}" *)
| KindsNotAllowed (not_allowed : list string) (* "Недопустимые типы графиков: {not_allowed}" *)
| Text (s : string)                       (* a library's own message *)
| About (s : string) (arg : string).      (* a library's message quoting an argument *)

Definition exn_class_of (e : exn) : exn_class :=
  match e with Raise c _ => c end.

(** A computation that returns or raises. *)
Inductive Exc (A : Type) :=
| Return (a : A)
| Raised (e : exn).
Arguments Return {A} a.
Arguments Raised {A} e.

Definition exc_bind {A B} (c : Exc A) (k : A -> Exc B) : Exc B :=
  match c with
  | Return a => k a
  | Raised e => Raised e
  end.

Definition raise {A} (c : exn_class) (m : message) : Exc A := Raised (Raise c m).

Declare Scope exc_scope.
Delimit Scope exc_scope with exc.
Notation "x <- c ;; k" := (exc_bind c (fun x => k))
  (at level 61, c at next level, right associativity) : exc_scope.

(** [try: body except Exception as e: handler e]. *)
Definition try_except {A} (body : Exc A) (handler : exn -> Exc A) : Exc A :=
  match body with
  | Return a => Return a
  | Raised e => handler e
  end.

(** [xs[i]] on a Python list, for [i >= 0]. *)
Definition list_index {A} (xs : list A) (i : nat) : Exc A :=
  match nth_error xs i with
  | Some x => Return x
  | None => raise IndexError (Text "list index out of range")
  end.

(** [x in xs] for lists of strings. *)
Definition str_in (x : string) (xs : list string) : bool :=
  existsb (String.eqb x) xs.

Fixpoint exc_map {A B} (f : A -> Exc B) (xs : list A) : Exc (list B) :=
  match xs with
  | [] => Return []
  | x :: rest =>
      (y <- f x ;; ys <- exc_map f rest ;; Return (y :: ys))%exc
  end.

(* ===================================================================== *)
(** ** The proleptic Gregorian calendar

    pandas reads the calendar fields of a timestamp off its day number
    (days since 1970-01-01): the day number is split into a year and a
    day of that year over the 400-year cycle, and the month is found by
    walking the table of month lengths. *)

Definition is_leapyear (y : Z) : bool :=
  (y mod 4 =? 0) && (negb (y mod 100 =? 0) || (y mod 400 =? 0)).

Definition days_per_month_table (leap : bool) : list Z :=
  [31; if leap then 29 else 28; 31; 30; 31; 30; 31; 31; 30; 31; 30; 31].

Definition days_in_year (y : Z) : Z := if is_leapyear y then 366 else 365.

Definition days_per_400years : Z := 400 * 365 + 100 - 4 + 1.

(** Position inside a 400-year cycle that starts on 1 January of a year
    divisible by 400: years elapsed and day of the year, from 0. *)
Definition cycle_yearsdays (days : Z) : Z * Z :=
  if 366 <=? days then
    let year := 100 * ((days - 1) / (100 * 365 + 25 - 1)) in
    let days := (days - 1) mod (100 * 365 + 25 - 1) in
    if 365 <=? days then
      let year := year + 4 * ((days + 1) / (4 * 365 + 1)) in
      let days := (days + 1) mod (4 * 365 + 1) in
      if 366 <=? days then (year + (days - 1) / 365, (days - 1) mod 365)
      else (year, days)
    else (year, days)
  else (0, days).

(** Year and day of the year (from 0) of a day number. *)
Definition days_to_yearsdays (days : Z) : Z * Z :=
  let days := days - (365 * 30 + 7) in
  let '(y, d) := cycle_yearsdays (days mod days_per_400years) in
  (2000 + 400 * (days / days_per_400years) + y, d).

(** Walk the month lengths: [i] months are behind, [days] days remain. *)
Fixpoint month_and_day (lengths : list Z) (i : Z) (days : Z) : Z * Z :=
  match lengths with
  | [] => (i + 1, days + 1)
  | len :: rest =>
      if days <? len then (i + 1, days + 1)
      else month_and_day rest (i + 1) (days - len)
  end.

Record civil := { c_year : Z; c_month : Z; c_day : Z }.

Definition civil_from_days (days : Z) : civil :=
  let '(y, yd) := days_to_yearsdays days in
  let '(m, d) := month_and_day (days_per_month_table (is_leapyear y)) 0 yd in
  {| c_year := y; c_month := m; c_day := d |}.

(** The inverse direction, used when a date is read from text: days from
    1970-01-01 to the given date. *)
Definition days_before_year (y : Z) : Z :=
  let p := y - 1 in
  365 * (y - 1970) + (p / 4 - 1969 / 4) - (p / 100 - 1969 / 100) + (p / 400 - 1969 / 400).

Definition days_before_month (leap : bool) (m : Z) : Z :=
  fold_right Z.add 0 (firstn (Z.to_nat (m - 1)) (days_per_month_table leap)).

Definition days_in_month (y m : Z) : Z :=
  nth (Z.to_nat (m - 1)) (days_per_month_table (is_leapyear y)) 0.

Definition days_from_civil (y m d : Z) : Z :=
  days_before_year y + days_before_month (is_leapyear y) m + (d - 1).

(* ===================================================================== *)
(** ** pandas: timestamps and their calendar fields *)

(** A [datetime64[ns]] value: nanoseconds since 1970-01-01T00:00:00. *)
Definition Timestamp := Z.

Definition ns_per_second : Z := 1000000000.
Definition ns_per_minute : Z := 60 * ns_per_second.
Definition ns_per_hour : Z := 60 * ns_per_minute.
Definition ns_per_day : Z := 24 * ns_per_hour.

(** Representable timestamps: int64, whose least value is kept for NaT. *)
Definition timestamp_in_bounds (t : Z) : bool :=
  (- 9223372036854775807 <=? t) && (t <=? 9223372036854775807).

Definition day_number (t : Timestamp) : Z := t / ns_per_day.

Definition ts_year (t : Timestamp) : Z := c_year (civil_from_days (day_number t)).
Definition ts_month (t : Timestamp) : Z := c_month (civil_from_days (day_number t)).
Definition ts_day (t : Timestamp) : Z := c_day (civil_from_days (day_number t)).
Definition ts_hour (t : Timestamp) : Z := (t mod ns_per_day) / ns_per_hour.

(** [quarter] is computed by pandas from the month. *)
Definition ts_quarter (t : Timestamp) : Z := (ts_month t - 1) / 3 + 1.

(** Monday is 0; 1970-01-01 was a Thursday. *)
Definition ts_dayofweek (t : Timestamp) : Z := (day_number t + 3) mod 7.

Definition DAYS_FULL : list string :=
  ["Monday"; "Tuesday"; "Wednesday"; "Thursday"; "Friday"; "Saturday"; "Sunday"].

Definition ts_day_name (t : Timestamp) : string :=
  nth (Z.to_nat (ts_dayofweek t)) DAYS_FULL "".

(* ===================================================================== *)
(** ** pandas: series and frames *)

(** A column with its dtype.  A column that holds missing values (NaN,
    NaT) is a case of its own, so that the first three constructors are
    the columns without any. *)
Inductive Series :=
| ObjectSeries (values : list string)        (* dtype object: text *)
| Int64Series (values : list Z)              (* dtype int64 *)
| DatetimeSeries (values : list Timestamp)   (* dtype datetime64[ns] *)
| ObjectNaSeries (values : list (option string))
                                             (* dtype object: text and NaN *)
| Float64Series (values : list (option Z))   (* dtype float64: whole numbers and NaN *)
| DatetimeNaTSeries (values : list (option Timestamp)).
                                             (* dtype datetime64[ns] with NaT *)

Definition series_len (s : Series) : nat :=
  match s with
  | ObjectSeries v => List.length v
  | Int64Series v => List.length v
  | DatetimeSeries v => List.length v
  | ObjectNaSeries v => List.length v
  | Float64Series v => List.length v
  | DatetimeNaTSeries v => List.length v
  end.

(** The values of a column when none is missing. *)
Fixpoint all_present {A} (cells : list (option A)) : option (list A) :=
  match cells with
  | [] => Some []
  | Some x :: rest => option_map (cons x) (all_present rest)
  | None :: _ => None
  end.

(** Columns built from cells that may be missing: the plain dtype when
    every cell is there; text with NaN, float64 (an integer column cannot
    hold NaN) and datetime with NaT otherwise. *)
Definition object_column (cells : list (option string)) : Series :=
  match all_present cells with
  | Some v => ObjectSeries v
  | None => ObjectNaSeries cells
  end.

Definition int_column (cells : list (option Z)) : Series :=
  match all_present cells with
  | Some v => Int64Series v
  | None => Float64Series cells
  end.

Definition datetime_column (cells : list (option Timestamp)) : Series :=
  match all_present cells with
  | Some v => DatetimeSeries v
  | None => DatetimeNaTSeries cells
  end.

(** A frame: its columns in order, each under its label. *)
Definition DataFrame := list (string * Series).

(** [pd.DataFrame()]. *)
Definition empty_frame : DataFrame := [].

(** [df.columns]. *)
Definition columns (df : DataFrame) : list string := map fst df.

Definition nrows (df : DataFrame) : nat :=
  match df with
  | [] => 0%nat
  | (_, s) :: _ => series_len s
  end.

Definition ncols (df : DataFrame) : nat := List.length df.

(** [df.shape]. *)
Definition shape (df : DataFrame) : nat * nat := (nrows df, ncols df).

(** All columns of a frame have the length of its index. *)
Definition frame_aligned (df : DataFrame) : Prop :=
  Forall (fun c => series_len (snd c) = nrows df) df.

Fixpoint lookup_column (df : DataFrame) (name : string) : option Series :=
  match df with
  | [] => None
  | (n, s) :: rest => if String.eqb n name then Some s else lookup_column rest name
  end.

(** [df[name]]. *)
Definition getitem (df : DataFrame) (name : string) : Exc Series :=
  match lookup_column df name with
  | Some s => Return s
  | None => raise KeyError (About "column" name)
  end.

(** [df[name] = s]: the column is replaced where it stands, or added last. *)
Fixpoint setitem (df : DataFrame) (name : string) (s : Series) : DataFrame :=
  match df with
  | [] => [(name, s)]
  | (n, s0) :: rest =>
      if String.eqb n name then (n, s) :: rest else (n, s0) :: setitem rest name s
  end.

(** [df.columns = names]. *)
Definition set_columns (df : DataFrame) (names : list string) : Exc DataFrame :=
  if Nat.eqb (List.length names) (ncols df)
  then Return (combine names (map snd df))
  else raise ValueError (Text "Length mismatch").

(** [df.copy()]: frames are values here, a copy is the frame itself. *)
Definition copy (df : DataFrame) : DataFrame := df.

(** [pd.api.types.is_datetime64_any_dtype]. *)
Definition is_datetime64_any_dtype (s : Series) : bool :=
  match s with
  | DatetimeSeries _ => true
  | DatetimeNaTSeries _ => true
  | _ => false
  end.

(** The [.dt] accessor, which only datetime-like series have: the
    timestamps, [None] for NaT. *)
Definition dt (s : Series) : Exc (list (option Timestamp)) :=
  match s with
  | DatetimeSeries ts => Return (map Some ts)
  | DatetimeNaTSeries cells => Return cells
  | _ => raise AttributeError (Text "Can only use .dt accessor with datetimelike values")
  end.

(** [s.str[:n]] on a series of text; NaN stays NaN. *)
Definition str_slice_to (n : nat) (names : list (option string))
  : list (option string) :=
  map (option_map (substring 0 n)) names.

(** The cells of a series as scalars. *)
Inductive scalar :=
| SStr (s : string)
| SInt (z : Z)
| STime (t : Timestamp)
| SNaN.

(** Equality of cells; a missing cell equals nothing. *)
Definition scalar_eqb (a b : scalar) : bool :=
  match a, b with
  | SStr x, SStr y => String.eqb x y
  | SInt x, SInt y => Z.eqb x y
  | STime x, STime y => Z.eqb x y
  | _, _ => false
  end.

Definition cell_of {A} (wrap : A -> scalar) (c : option A) : scalar :=
  match c with
  | Some x => wrap x
  | None => SNaN
  end.

Definition cells (s : Series) : list scalar :=
  match s with
  | ObjectSeries v => map SStr v
  | Int64Series v => map SInt v
  | DatetimeSeries v => map STime v
  | ObjectNaSeries v => map (cell_of SStr) v
  | Float64Series v => map (cell_of SInt) v
  | DatetimeNaTSeries v => map (cell_of STime) v
  end.

(** [s.isin(values)]: cell by cell, is it one of [values]. *)
Definition isin (s : Series) (values : list scalar) : list bool :=
  map (fun c => existsb (scalar_eqb c) values) (cells s).

(** [.astype(int)] on a boolean series. *)
Definition astype_int (bs : list bool) : Series :=
  Int64Series (map (fun b : bool => if b then 1 else 0) bs).

(* ===================================================================== *)
(** ** What the libraries decide

    The parts of pandas, matplotlib and the operating system whose
    behaviour depends on free-form text, on the version or on the
    machine. *)

(** A frequency: a fixed number of nanoseconds, or [n] times a calendar
    rule (a week anchored on a weekday, a month end, ...), whose dates are
    not equally spaced from the start. *)
Inductive Offset :=
| Tick (nanos : Z)
| Calendar (n : Z) (rule : string).

Class Runtime := {
  (** [os.path.exists(path)]. *)
  path_exists : string -> bool;
  (** [pd.read_csv(path)]. *)
  read_csv : string -> Exc DataFrame;
  (** [pd.Timestamp(text)] for the start of a range. *)
  parse_datetime : string -> Exc Timestamp;
  (** The strftime format [pd.to_datetime] infers from a cell, if any. *)
  guess_datetime_format : string -> option string;
  (** Reading one cell in the inferred format; without a format, the
      free-form parser. *)
  parse_with_format : option string -> string -> Exc Timestamp;
  (** Reading a frequency alias such as ["14h"]. *)
  to_offset : string -> Exc Offset;
  (** The dates of a calendar rule: [n], the rule, the start, the count. *)
  calendar_range : Z -> string -> Timestamp -> Z -> Exc (list Timestamp);
  (** What [pd.date_range] raises for a negative count; its class depends
      on the versions of pandas and numpy. *)
  negative_periods : exn;
  (** [s.value_counts()]: the distinct values that are not missing with
      their numbers of occurrences, most frequent first; the order among
      equal counts is left to numpy's sort. *)
  value_counts : Series -> list (scalar * nat);
  (** [Series.plot(kind=kind)] on a table of counts: the exception it
      raises, if it refuses. *)
  plot_refusal : string -> list (scalar * nat) -> option exn
}.

(** The texts [pd.to_datetime] reads as a missing value. *)
Definition nat_strings : list string :=
  ["NaT"; "nat"; "NAT"; "nan"; "NaN"; "NAN"].

Definition is_nat_text (x : string) : bool :=
  String.eqb x "" || str_in x nat_strings.

(** A cell that is missing, as NaN or as one of these texts. *)
Definition is_null_cell (c : option string) : bool :=
  match c with
  | Some x => is_nat_text x
  | None => true
  end.

(** The format of a column: the one inferred from its first cell that is
    not missing. *)
Definition column_format `{Runtime} (cells : list (option string))
  : option string :=
  match find (fun c => negb (is_null_cell c)) cells with
  | Some (Some first) => guess_datetime_format first
  | _ => None
  end.

(** One cell: a missing cell becomes NaT, any other is read in the
    column's format. *)
Definition convert_cell `{Runtime} (format : option string) (c : option string)
  : Exc (option Timestamp) :=
  match c with
  | None => Return None
  | Some x =>
      if is_nat_text x then Return None
      else (t <- parse_with_format format x ;; Return (Some t))%exc
  end.

Definition to_datetime_cells `{Runtime} (cells : list (option string))
  : Exc (list (option Timestamp)) :=
  exc_map (convert_cell (column_format cells)) cells.

(** The int64 value that stands for NaT. *)
Definition iNaT : Z := - 9223372036854775808.

Definition nat_if_iNaT (z : Z) : option Timestamp :=
  if z =? iNaT then None else Some z.

(** The cells of a column of text. *)
Definition text_cells (s : Series) : option (list (option string)) :=
  match s with
  | ObjectSeries texts => Some (map Some texts)
  | ObjectNaSeries cells => Some cells
  | _ => None
  end.

Definition is_none {A} (c : option A) : bool :=
  match c with
  | Some _ => false
  | None => true
  end.

(** Row by row: is the cell one that [pd.to_datetime] reads as missing. *)
Definition missing_for_datetime (s : Series) : list bool :=
  match s with
  | ObjectSeries texts => map is_nat_text texts
  | ObjectNaSeries cells => map is_null_cell cells
  | Int64Series ns => map (fun z => z =? iNaT) ns
  | Float64Series cells => map is_none cells
  | DatetimeSeries ts => map (fun _ => false) ts
  | DatetimeNaTSeries cells => map is_none cells
  end.

(** [pd.to_datetime(s, errors="raise")].  Text is read in the format of the
    first cell that is not missing, and the first cell that does not fit
    is raised; missing cells become NaT; numbers are nanoseconds since the
    epoch; a datetime column is returned as it is. *)
Definition to_datetime `{Runtime} (s : Series) : Exc Series :=
  match s with
  | DatetimeSeries ts => Return (DatetimeSeries ts)
  | DatetimeNaTSeries cells => Return (datetime_column cells)
  | Int64Series ns => Return (datetime_column (map nat_if_iNaT ns))
  | Float64Series cells => Return (datetime_column cells)
  | ObjectSeries texts =>
      (cells <- to_datetime_cells (map Some texts) ;;
       Return (datetime_column cells))%exc
  | ObjectNaSeries texts =>
      (cells <- to_datetime_cells texts ;; Return (datetime_column cells))%exc
  end.

(** [pd.date_range(start=start, periods=periods, freq=freq)]: [periods]
    values; for a fixed-length step they are the start and what follows it
    step by step. *)
Definition date_range `{Runtime} (start : string) (periods : Z) (freq : string)
  : Exc (list Timestamp) :=
  (offset <- to_offset freq ;;
   t0 <- parse_datetime start ;;
   if periods <? 0 then Raised negative_periods
   else
     match offset with
     | Tick step =>
         let ts := map (fun i => t0 + Z.of_nat i * step) (seq 0 (Z.to_nat periods)) in
         if forallb timestamp_in_bounds ts then Return ts
         else raise OutOfBoundsDatetime
                    (About "Cannot generate range with start and periods" start)
     | Calendar n rule => calendar_range n rule t0 periods
     end)%exc.

(* ===================================================================== *)
(** ** Effects: standard output and the pyplot canvas *)

(** One chart drawn on one axes of a figure. *)
Record Panel := {
  panel_axes : nat;
  panel_kind : string;
  panel_title : string;
  panel_data : list (scalar * nat)
}.

Record Figure := {
  fig_axes : nat;            (* number of axes, side by side in one row *)
  fig_size : Z * Z;
  fig_panels : list Panel;   (* in drawing order *)
  fig_tight : bool;
  fig_shown : bool
}.

(** What [print] wrote. *)
Inductive Output :=
| GenerationFailed (e : exn)   (* "Ошибка при создании строковых временных меток: {e}" *)
| Table (df : DataFrame).

(** The state outside the script's values: what was printed, oldest first,
    and pyplot's figures, the current one first. *)
Record World := {
  stdout : list Output;
  canvas : list Figure
}.

Definition initial_world : World := {| stdout := []; canvas := [] |}.

(** An effectful computation.  The effects done before an exception stay. *)
Definition IO (A : Type) := World -> Exc A * World.

Definition io_ret {A} (a : A) : IO A := fun w => (Return a, w).

Definition io_bind {A B} (c : IO A) (k : A -> IO B) : IO B :=
  fun w =>
    match c w with
    | (Return a, w') => k a w'
    | (Raised e, w') => (Raised e, w')
    end.

Definition io_raise {A} (c : exn_class) (m : message) : IO A :=
  fun w => (raise c m, w).

Definition lift {A} (c : Exc A) : IO A := fun w => (c, w).

Definition io_try {A} (body : IO A) (handler : exn -> IO A) : IO A :=
  fun w =>
    match body w with
    | (Return a, w') => (Return a, w')
    | (Raised e, w') => handler e w'
    end.

Declare Scope io_scope.
Delimit Scope io_scope with io.
Notation "x <- c ;; k" := (io_bind c (fun x => k))
  (at level 61, c at next level, right associativity) : io_scope.
Notation "c ;; k" := (io_bind c (fun _ => k))
  (at level 61, right associativity) : io_scope.

Definition print (o : Output) : IO unit :=
  fun w => (Return tt, {| stdout := stdout w ++ [o]; canvas := canvas w |}).

(** [for x in xs: body x]. *)
Fixpoint for_each {A} (xs : list A) (body : A -> IO unit) : IO unit :=
  match xs with
  | [] => io_ret tt
  | x :: rest => (body x ;; for_each rest body)%io
  end.

(** What [plt.subplots] hands back: one axes, or an array of them. *)
Inductive axes_obj :=
| Axes (i : nat)
| AxesArray (ids : list nat).

(** The script's variable [axes]: that object, or a Python list it was
    wrapped in. *)
Inductive axes_var :=
| Bare (a : axes_obj)
| Listed (items : list axes_obj).

(** [plt.subplots(1, n, figsize=size)]: a new current figure with [n] empty
    axes.  A lone axes is returned as itself, not as an array.  The figure
    is created before the grid is laid out, so asking for no column raises
    and leaves a figure without axes behind. *)
Definition subplots (n : nat) (size : Z * Z) : IO axes_obj :=
  fun w =>
    let fig := {| fig_axes := n; fig_size := size; fig_panels := [];
                  fig_tight := false; fig_shown := false |} in
    let w' := {| stdout := stdout w; canvas := fig :: canvas w |} in
    match n with
    | O => (raise ValueError (Text "Number of columns must be a positive integer, not 0"), w')
    | S _ => (Return (if Nat.eqb n 1 then Axes 0 else AxesArray (seq 0 n)), w')
    end.

(** [axes[i]]. *)
Definition axes_index (axes : axes_var) (i : nat) : Exc axes_obj :=
  match axes with
  | Bare (Axes _) => raise TypeError (Text "'Axes' object is not subscriptable")
  | Bare (AxesArray ids) =>
      match nth_error ids i with
      | Some a => Return (Axes a)
      | None => raise IndexError (Text "index is out of bounds for axis 0")
      end
  | Listed items => list_index items i
  end.

Definition update_current (f : Figure -> Figure) (w : World) : World :=
  match canvas w with
  | [] => w
  | fig :: rest => {| stdout := stdout w; canvas := f fig :: rest |}
  end.

Definition add_panel (p : Panel) (fig : Figure) : Figure :=
  {| fig_axes := fig_axes fig; fig_size := fig_size fig;
     fig_panels := fig_panels fig ++ [p];
     fig_tight := fig_tight fig; fig_shown := fig_shown fig |}.

(** [counts.plot(kind=kind, ax=ax, title=title)]. *)
Definition series_plot `{Runtime} (counts : list (scalar * nat))
    (kind : string) (ax : axes_obj) (title : string) : IO unit :=
  fun w =>
    match ax with
    | Axes i =>
        match plot_refusal kind counts with
        | Some e => (Raised e, w)
        | None =>
            (Return tt,
             update_current
               (add_panel {| panel_axes := i; panel_kind := kind;
                             panel_title := title; panel_data := counts |}) w)
        end
    | _ => (raise AttributeError (Text "object has no attribute 'get_figure'"), w)
    end.

(** [plt.tight_layout()]. *)
Definition tight_layout : IO unit :=
  fun w =>
    (Return tt,
     update_current (fun fig =>
       {| fig_axes := fig_axes fig; fig_size := fig_size fig;
          fig_panels := fig_panels fig; fig_tight := true;
          fig_shown := fig_shown fig |}) w).

(** [plt.show()]. *)
Definition show : IO unit :=
  fun w =>
    (Return tt,
     update_current (fun fig =>
       {| fig_axes := fig_axes fig; fig_size := fig_size fig;
          fig_panels := fig_panels fig; fig_tight := fig_tight fig;
          fig_shown := true |}) w).

(** Every panel drawn so far, on any figure. *)
Definition panels_drawn (w : World) : list Panel :=
  flat_map fig_panels (canvas w).

(* ===================================================================== *)
(** ** The script *)

Section Script.
Context `{RT : Runtime}.

(** Loading the table from a CSV file. *)
Definition load_dataframe_from_file (path : string) : Exc DataFrame :=
  if negb (path_exists path) then
    raise FileNotFoundError (FileMissing path)
  else
    (df <- try_except (read_csv path)
                      (fun e => raise ValueError (CsvReadFailed e)) ;;
     if negb (Nat.eqb (snd (shape df)) 1) then
       raise ValueError OneColumnExpected
     else
       (df <- set_columns df ["timestamp"] ;;
        Return df))%exc.

(** Building the table synthetically.  The handler prints and ends without
    a [return]: the caller receives [None]. *)
Definition create_periodic_dataframe
    (start_timedate_point : string) (periods : Z) (freq : string)
  : IO (option DataFrame) :=
  io_try
    (timestamps <- lift (date_range start_timedate_point periods freq) ;;
     io_ret (Some [("timestamp", DatetimeSeries timestamps)]))%io
    (fun e => (print (GenerationFailed e) ;; io_ret None)%io).

(** Turning the text of the "timestamp" column into datetimes. *)
Definition convert_to_datetime (df : DataFrame) : Exc DataFrame :=
  if negb (str_in "timestamp" (columns df)) then
    raise KeyError TimestampColumnAbsent
  else
    try_except
      (let result := copy df in
       col <- getitem result "timestamp" ;;
       converted <- to_datetime col ;;
       let result := setitem result "timestamp" converted in
       Return result)%exc
      (fun e => raise ValueError (DatetimeConversionFailed e)).

(** [df["timestamp"].dt.<field>]: the field of every timestamp, NaN where
    the timestamp is NaT. *)
Definition timestamp_field {A} (field : Timestamp -> A) (df : DataFrame)
  : Exc (list (option A)) :=
  (col <- getitem df "timestamp" ;;
   ts <- dt col ;;
   Return (map (option_map field) ts))%exc.

(** Deriving the calendar columns. *)
Definition extract_parts (df : DataFrame) : Exc DataFrame :=
  if negb (str_in "timestamp" (columns df)) then
    raise KeyError TimestampColumnAbsent
  else
    (col <- getitem df "timestamp" ;;
     if negb (is_datetime64_any_dtype col) then
       raise TypeError TimestampNotDatetime
     else
       let new_df := empty_frame in
       day <- timestamp_field ts_day df ;;
       let new_df := setitem new_df "day" (int_column day) in
       month <- timestamp_field ts_month df ;;
       let new_df := setitem new_df "month" (int_column month) in
       year <- timestamp_field ts_year df ;;
       let new_df := setitem new_df "year" (int_column year) in
       hour <- timestamp_field ts_hour df ;;
       let new_df := setitem new_df "hour" (int_column hour) in
       quarter <- timestamp_field ts_quarter df ;;
       let new_df := setitem new_df "quarter" (int_column quarter) in
       weekday <- timestamp_field ts_dayofweek df ;;
       let new_df := setitem new_df "weekday" (int_column weekday) in
       day_name <- timestamp_field ts_day_name df ;;
       let new_df := setitem new_df "weekday_name"
                       (object_column (str_slice_to 3 day_name)) in
       weekday_col <- getitem new_df "weekday" ;;
       let new_df := setitem new_df "is_weekend"
                       (astype_int (isin weekday_col [SInt 5; SInt 6])) in
       Return (copy new_df))%exc.

Definition allowed_kinds : list string :=
  ["line"; "bar"; "barh"; "kde"; "density"; "area"; "hist"; "box"; "pie";
   "scatter"; "hexbin"].

(** Drawing one chart per requested category. *)
Definition display (df : DataFrame) (category kind title : list string)
  : IO unit :=
  if existsb (fun cat => negb (str_in cat (columns df))) category then
    let missing := filter (fun cat => negb (str_in cat (columns df))) category in
    io_raise KeyError (ColumnsAbsent missing)
  else if existsb (fun k => negb (str_in k allowed_kinds)) kind then
    let not_allowed := filter (fun k => negb (str_in k allowed_kinds)) kind in
    io_raise KeyError (KindsNotAllowed not_allowed)
  else
    (axes <- subplots (List.length category)
                      (5 * Z.of_nat (List.length category), 4) ;;
     let axes := if Nat.eqb (List.length category) 1
                 then Listed [axes] else Bare axes in
     for_each (seq 0 (List.length category)) (fun i =>
       cat <- lift (list_index category i) ;;
       col <- lift (getitem df cat) ;;
       let counts := value_counts col in
       k <- lift (list_index kind i) ;;
       ax <- lift (axes_index axes i) ;;
       t <- lift (list_index title i) ;;
       series_plot counts k ax t) ;;
     tight_layout ;;
     show)%io.

(** A value that may be [None], used where a frame is expected: the first
    thing both stages do with it is read [.columns]. *)
Definition as_frame (v : option DataFrame) : Exc DataFrame :=
  match v with
  | Some df => Return df
  | None => raise AttributeError (Text "'NoneType' object has no attribute 'columns'")
  end.

Definition example_main_synthetic : IO unit :=
  (input_df <- create_periodic_dataframe "2025-09-16 02:35:00" 15 "14h" ;;
   transformed_df <- lift (df <- as_frame input_df ;; convert_to_datetime df)%exc ;;
   result_df <- lift (extract_parts transformed_df) ;;
   print (Table result_df) ;;
   display result_df ["weekday_name"; "weekday_name"] ["bar"; "pie"]
           ["Activity Count by Day of Week"; "Days of the week"])%io.

Definition main_read_file (input_csv : string) : IO unit :=
  (input_df <- lift (load_dataframe_from_file input_csv) ;;
   transformed_df <- lift (convert_to_datetime input_df) ;;
   result_df <- lift (extract_parts transformed_df) ;;
   print (Table result_df) ;;
   display result_df ["weekday_name"; "weekday_name"] ["bar"; "pie"]
           ["Activity Count by Day of Week"; "Days of the week"])%io.

End Script.

(* ===================================================================== *)
(** ** A reference run-time

    One concrete [Runtime], for the scenarios with concrete text: dates
    in the form [YYYY-MM-DD HH:MM:SS] (or with [T], or the date alone),
    frequencies that are a count and a fixed-length unit or weeks, and
    comma-separated text without quoting whose cells are dates, other
    text, integers or markers of a missing value.  pandas reads more than
    this (other date formats and frequency aliases, quoted fields, decimal
    numbers and booleans, which the reference leaves as text): the facts
    that use the reference stay inside what it models. *)

Definition digit_of (c : ascii) : option Z :=
  let n := Z.of_nat (nat_of_ascii c) in
  if (48 <=? n) && (n <=? 57) then Some (n - 48) else None.

Fixpoint digits_value (acc : Z) (s : string) : option Z :=
  match s with
  | EmptyString => Some acc
  | String c rest =>
      match digit_of c with
      | Some d => digits_value (10 * acc + d) rest
      | None => None
      end
  end.

(** A non-empty run of decimal digits. *)
Definition parse_digits (s : string) : option Z :=
  match s with
  | EmptyString => None
  | _ => digits_value 0 s
  end.

(** An integer literal: digits after an optional sign. *)
Definition parse_int (s : string) : option Z :=
  match s with
  | String "-" rest => option_map Z.opp (parse_digits rest)
  | String "+" rest => parse_digits rest
  | _ => parse_digits s
  end.

Definition char_at (s : string) (i : nat) (c : ascii) : bool :=
  match get i s with
  | Some c' => Ascii.eqb c c'
  | None => false
  end.

Definition valid_date (y m d : Z) : bool :=
  (1 <=? m) && (m <=? 12) && (1 <=? d) && (d <=? days_in_month y m).

Definition valid_time (hh mm ss : Z) : bool :=
  (hh <? 24) && (mm <? 60) && (ss <? 60).

Definition iso_date (s : string) : option Z :=
  if char_at s 4 "-" && char_at s 7 "-" then
    match parse_digits (substring 0 4 s), parse_digits (substring 5 2 s),
          parse_digits (substring 8 2 s) with
    | Some y, Some m, Some d =>
        if valid_date y m d then Some (days_from_civil y m d * ns_per_day) else None
    | _, _, _ => None
    end
  else None.

Definition iso_time (s : string) : option Z :=
  if char_at s 2 ":" && char_at s 5 ":" then
    match parse_digits (substring 0 2 s), parse_digits (substring 3 2 s),
          parse_digits (substring 6 2 s) with
    | Some hh, Some mm, Some ss =>
        if valid_time hh mm ss
        then Some (hh * ns_per_hour + mm * ns_per_minute + ss * ns_per_second)
        else None
    | _, _, _ => None
    end
  else None.

Definition iso_datetime (s : string) : Exc Timestamp :=
  let unknown := raise DateParseError (About "Unknown datetime string format" s) in
  let bounded (t : Z) :=
    if timestamp_in_bounds t then Return t
    else raise OutOfBoundsDatetime (About "Out of bounds nanosecond timestamp" s) in
  if Nat.eqb (String.length s) 10 then
    match iso_date s with
    | Some t => bounded t
    | None => unknown
    end
  else if Nat.eqb (String.length s) 19 && (char_at s 10 " " || char_at s 10 "T") then
    match iso_date (substring 0 10 s), iso_time (substring 11 8 s) with
    | Some day, Some time => bounded (day + time)
    | _, _ => unknown
    end
  else unknown.

(** The formats the reference infers from a cell. *)
Definition format_date : string := "%Y-%m-%d".
Definition format_datetime : string := "%Y-%m-%d %H:%M:%S".
Definition format_datetime_T : string := "%Y-%m-%dT%H:%M:%S".

Definition has_format (format : string) (x : string) : bool :=
  if String.eqb format format_date then Nat.eqb (String.length x) 10
  else if String.eqb format format_datetime then
    Nat.eqb (String.length x) 19 && char_at x 10 " "
  else if String.eqb format format_datetime_T then
    Nat.eqb (String.length x) 19 && char_at x 10 "T"
  else false.

Definition reference_guess_format (x : string) : option string :=
  match iso_datetime x with
  | Raised _ => None
  | Return _ =>
      if has_format format_date x then Some format_date
      else if has_format format_datetime x then Some format_datetime
      else Some format_datetime_T
  end.

(** A cell must have the shape of the column's format; without a format
    every cell is read on its own. *)
Definition reference_parse_with_format (format : option string) (x : string)
  : Exc Timestamp :=
  match format with
  | None => iso_datetime x
  | Some f =>
      if has_format f x then iso_datetime x
      else raise ValueError (About "time data doesn't match format" x)
  end.

(** The leading digits of a text and what follows them. *)
Fixpoint split_digits (s : string) : string * string :=
  match s with
  | EmptyString => (EmptyString, EmptyString)
  | String c rest =>
      match digit_of c with
      | Some _ => let '(ds, u) := split_digits rest in (String c ds, u)
      | None => (EmptyString, s)
      end
  end.

Definition unit_ns (u : string) : option Z :=
  if String.eqb u "D" then Some ns_per_day
  else if String.eqb u "h" then Some ns_per_hour
  else if String.eqb u "min" then Some ns_per_minute
  else if String.eqb u "s" then Some ns_per_second
  else if String.eqb u "ms" then Some 1000000
  else if String.eqb u "us" then Some 1000
  else if String.eqb u "ns" then Some 1
  else None.

(** A count, 1 when there is none, and a unit: a fixed length, or weeks,
    which pandas anchors on Sunday. *)
Definition reference_offset (freq : string) : Exc Offset :=
  let invalid := raise ValueError (About "Invalid frequency" freq) in
  let '(ds, u) := split_digits freq in
  let count :=
    match ds with
    | EmptyString => Some 1
    | _ => match digits_value 0 ds with
           | Some n => if 0 <? n then Some n else None
           | None => None
           end
    end in
  match count with
  | None => invalid
  | Some n =>
      match unit_ns u with
      | Some ns => Return (Tick (n * ns))
      | None => if String.eqb u "W" then Return (Calendar n "W-SUN") else invalid
      end
  end.

(** A range of weeks: from the first Sunday that is not before the start,
    at the start's time of day. *)
Definition reference_calendar_range (n : Z) (rule : string) (t0 : Timestamp)
    (periods : Z) : Exc (list Timestamp) :=
  if String.eqb rule "W-SUN" then
    let first := t0 + ((6 - ts_dayofweek t0) mod 7) * ns_per_day in
    let ts := map (fun i => first + Z.of_nat i * (n * (7 * ns_per_day)))
                  (seq 0 (Z.to_nat periods)) in
    if forallb timestamp_in_bounds ts then Return ts
    else raise OutOfBoundsDatetime (Text "Cannot generate range with start and periods")
  else raise ValueError (About "Invalid frequency" rule).

(** Cutting a text at the characters satisfying [p]. *)
Fixpoint split_on (p : ascii -> bool) (s : string) : list string :=
  match s with
  | EmptyString => [EmptyString]
  | String c rest =>
      if p c then EmptyString :: split_on p rest
      else
        match split_on p rest with
        | h :: t => String c h :: t
        | [] => [String c EmptyString]
        end
  end.

Definition is_newline (c : ascii) : bool :=
  Ascii.eqb c "010" || Ascii.eqb c "013".

Definition is_comma (c : ascii) : bool := Ascii.eqb c ",".

Fixpoint is_blank (s : string) : bool :=
  match s with
  | EmptyString => true
  | String c rest => (Ascii.eqb c " " || Ascii.eqb c "009") && is_blank rest
  end.

(** The cell texts [pd.read_csv] reads as a missing value. *)
Definition na_values : list string :=
  [""; "#N/A"; "#N/A N/A"; "#NA"; "-1.#IND"; "-1.#QNAN"; "-NaN"; "-nan";
   "1.#IND"; "1.#QNAN"; "<NA>"; "N/A"; "NA"; "NULL"; "NaN"; "None"; "n/a";
   "nan"; "null"].

Definition read_cell (t : string) : option string :=
  if str_in t na_values then None else Some t.

(** An integer literal that fits int64. *)
Definition int64_literal (t : string) : option Z :=
  match parse_int t with
  | Some z =>
      if (- 9223372036854775808 <=? z) && (z <=? 9223372036854775807)
      then Some z else None
  | None => None
  end.

Definition is_number_cell (c : option string) : bool :=
  match c with
  | None => true
  | Some t => match int64_literal t with Some _ => true | None => false end
  end.

Definition number_of_cell (c : option string) : option Z :=
  match c with
  | None => None
  | Some t => int64_literal t
  end.

(** The double nearest to an integer, ties to even: what casting int64 to
    float64 gives.  Up to 2^53 in size every integer is a double. *)
Definition nearest_double (z : Z) : Z :=
  let a := Z.abs z in
  if a <? 2 ^ 53 then z
  else
    let unit := 2 ^ (Z.log2 a - 52) in
    let q := a / unit in
    let r := a mod unit in
    let q := if (unit <? 2 * r) || ((2 * r =? unit) && Z.odd q) then q + 1 else q in
    Z.sgn z * (q * unit).

(** A column of integers is cast to float64 as soon as a cell is missing.
    The parser marks a missing cell in the integers by the least int64,
    so that this number, written out in such a column, is read as missing
    too. *)
Definition to_float (c : option Z) : option Z :=
  match c with
  | Some z => if z =? iNaT then None else Some (nearest_double z)
  | None => None
  end.

Definition number_column (cells : list (option Z)) : Series :=
  match all_present cells with
  | Some v => Int64Series v
  | None => Float64Series (map to_float cells)
  end.

(** The dtype pandas gives a column of text cells: numbers when every cell
    that is not missing is an integer literal within int64, text
    otherwise. *)
Definition infer_series (texts : list string) : Series :=
  match texts with
  | [] => ObjectSeries []
  | _ =>
      let cells := map read_cell texts in
      if forallb is_number_cell cells
      then number_column (map number_of_cell cells)
      else object_column cells
  end.

(** [pd.read_csv] on the text of a file: blank lines are skipped, the first
    line left gives the column labels, every further line is one row.  The
    first row may have more fields than there are labels: its leading
    fields are then the index, which no function of the script reads, and
    the labels name the fields after them.  A later row with fewer fields
    is filled up with missing cells, one with more is an error. *)
Definition read_csv_text (content : string) : Exc DataFrame :=
  let lines := filter (fun l => negb (is_blank l)) (split_on is_newline content) in
  match map (split_on is_comma) lines with
  | [] => raise EmptyDataError (Text "No columns to parse from file")
  | header :: rows =>
      let labels := List.length header in
      let width :=
        match rows with
        | [] => labels
        | first :: _ => Nat.max labels (List.length first)
        end in
      let leading := (width - labels)%nat in
      if forallb (fun r => Nat.leb (List.length r) width) rows then
        Return (map (fun j => (nth j header "",
                               infer_series (map (fun r => nth (leading + j) r "") rows)))
                    (seq 0 labels))
      else raise ParserError (Text "Error tokenizing data")
  end.

Fixpoint file_lookup (files : list (string * string)) (path : string) : option string :=
  match files with
  | [] => None
  | (p, content) :: rest => if String.eqb p path then Some content else file_lookup rest path
  end.

(** Bar and pie charts and the like are drawn; scatter and hexbin charts
    need a frame; a bar chart of an empty table of counts fails while its
    ticks are laid out. *)
Definition reference_plot_refusal (kind : string) (counts : list (scalar * nat))
  : option exn :=
  if String.eqb kind "scatter" || String.eqb kind "hexbin"
  then Some (Raise ValueError (About "plot kind can only be used for data frames" kind))
  else if String.eqb kind "bar" && Nat.eqb (List.length counts) 0
  then Some (Raise IndexError (Text "index 0 is out of bounds for axis 0 with size 0"))
  else None.

(** Tally: every distinct value with its number of occurrences, in order
    of first occurrence. *)
Fixpoint tally_add (x : scalar) (acc : list (scalar * nat)) : list (scalar * nat) :=
  match acc with
  | [] => [(x, 1%nat)]
  | (y, n) :: rest =>
      if scalar_eqb x y then (y, S n) :: rest else (y, n) :: tally_add x rest
  end.

Definition tally (xs : list scalar) : list (scalar * nat) :=
  fold_left (fun acc x => tally_add x acc) xs [].

(** Insertion by decreasing count; among equal counts the value met first
    in the series comes first. *)
Fixpoint insert_by_count (e : scalar * nat) (sorted : list (scalar * nat))
  : list (scalar * nat) :=
  match sorted with
  | [] => [e]
  | h :: rest =>
      if Nat.leb (snd h) (snd e) then e :: h :: rest
      else h :: insert_by_count e rest
  end.

Definition is_missing (c : scalar) : bool :=
  match c with
  | SNaN => true
  | _ => false
  end.

(** The counts of the cells that are not missing, most frequent first.
    Among equal counts the reference takes the order of first occurrence,
    one of the orders numpy's sort may give. *)
Definition reference_value_counts (s : Series) : list (scalar * nat) :=
  fold_right insert_by_count []
    (tally (filter (fun c => negb (is_missing c)) (cells s))).

(** The reference run-time over a file system given as paths with their
    text. *)
Definition reference (files : list (string * string)) : Runtime :=
  {| path_exists := fun path =>
       match file_lookup files path with Some _ => true | None => false end;
     read_csv := fun path =>
       match file_lookup files path with
       | Some content => read_csv_text content
       | None => raise FileNotFoundError (About "No such file or directory" path)
       end;
     parse_datetime := iso_datetime;
     guess_datetime_format := reference_guess_format;
     parse_with_format := reference_parse_with_format;
     to_offset := reference_offset;
     calendar_range := reference_calendar_range;
     negative_periods :=
       Raise ValueError (Text "Number of periods must be non-negative");
     value_counts := reference_value_counts;
     plot_refusal := reference_plot_refusal |}.

(** Joining lines with line feeds. *)
Definition join_lines (lines : list string) : string :=
  String.concat (String "010" EmptyString) lines.

(** Text that is one field of one line: no separator, terminator or quote. *)
Definition plain_char (c : ascii) : bool :=
  negb (is_newline c || is_comma c || Ascii.eqb c "034").

Fixpoint plain_text (s : string) : bool :=
  match s with
  | EmptyString => true
  | String c rest => plain_char c && plain_text rest
  end.

(* ===================================================================== *)
(** ** Reading a derived table row by row *)

(** The integer in column [name] at row [i]. *)
Definition int_at (df : DataFrame) (name : string) (i : nat) : option Z :=
  match lookup_column df name with
  | Some (Int64Series v) => nth_error v i
  | _ => None
  end.

(** The text in column [name] at row [i]. *)
Definition str_at (df : DataFrame) (name : string) (i : nat) : option string :=
  match lookup_column df name with
  | Some (ObjectSeries v) => nth_error v i
  | _ => None
  end.

(** A normalized table: aligned columns, among them a "timestamp" column of
    datetime dtype that holds a timestamp in every row. *)
Definition normalized (df : DataFrame) : Prop :=
  frame_aligned df /\
  exists ts, lookup_column df "timestamp" = Some (DatetimeSeries ts).

(** The eight derived columns, in the order they are added. *)
Definition derived_columns : list string :=
  ["day"; "month"; "year"; "hour"; "quarter"; "weekday"; "weekday_name";
   "is_weekend"].

(** Ceiling of a quotient. *)
Definition ceil_div (a b : Z) : Z := - ((- a) / b).

(** Three-letter day names, Monday first. *)
Definition day_abbreviations : list string :=
  ["Mon"; "Tue"; "Wed"; "Thu"; "Fri"; "Sat"; "Sun"].

(** What [extract_parts] builds from the timestamps of a normalized table. *)
Definition derived_frame (ts : list Timestamp) : DataFrame :=
  [("day", Int64Series (map ts_day ts));
   ("month", Int64Series (map ts_month ts));
   ("year", Int64Series (map ts_year ts));
   ("hour", Int64Series (map ts_hour ts));
   ("quarter", Int64Series (map ts_quarter ts));
   ("weekday", Int64Series (map ts_dayofweek ts));
   ("weekday_name", ObjectSeries (map (substring 0 3) (map ts_day_name ts)));
   ("is_weekend",
    astype_int (isin (Int64Series (map ts_dayofweek ts)) [SInt 5; SInt 6]))].

(** The same from a column that may hold NaT: the numbers are then NaN, the
    name is NaN, and is_weekend is 0. *)
Definition derived_frame_of (cells : list (option Timestamp)) : DataFrame :=
  [("day", int_column (map (option_map ts_day) cells));
   ("month", int_column (map (option_map ts_month) cells));
   ("year", int_column (map (option_map ts_year) cells));
   ("hour", int_column (map (option_map ts_hour) cells));
   ("quarter", int_column (map (option_map ts_quarter) cells));
   ("weekday", int_column (map (option_map ts_dayofweek) cells));
   ("weekday_name",
    object_column (str_slice_to 3 (map (option_map ts_day_name) cells)));
   ("is_weekend",
    astype_int (isin (int_column (map (option_map ts_dayofweek) cells))
                     [SInt 5; SInt 6]))].

(** The timestamp in column [name] at row [i]. *)
Definition time_at (df : DataFrame) (name : string) (i : nat) : option Timestamp :=
  match lookup_column df name with
  | Some (DatetimeSeries v) => nth_error v i
  | _ => None
  end.

(** A small normalized table: the epoch and the first instant of the
    synthetic example. *)
Definition sample_normalized : DataFrame :=
  [("timestamp", DatetimeSeries [0; 1757990100000000000])].

(** Text columns the normalizer does not treat cell by cell: one with an
    empty cell, one whose cells are dates in two formats. *)
Definition sample_with_gap : DataFrame :=
  [("timestamp", ObjectSeries ["2025-09-16 02:35:00"; ""])].

Definition sample_mixed_formats : DataFrame :=
  [("timestamp", ObjectSeries ["2025-09-16 02:35:00"; "2025-09-17"])].

(** Frames for the failure cases of the two middle stages: one without a
    "timestamp" column, one whose "timestamp" column is still text and
    holds a cell that is not a date. *)
Definition sample_unlabelled : DataFrame :=
  [("when", ObjectSeries ["2025-09-16 02:35:00"])].

Definition sample_unparseable : DataFrame :=
  [("timestamp", ObjectSeries ["2025-09-16 02:35:00"; "yesterday"])].

(** A small derived table, for the visualizer's cases. *)
Definition sample_derived : DataFrame :=
  [("weekday_name", ObjectSeries ["Tue"; "Tue"; "Wed"])].

(** A requested kind outside the enumeration. *)
Definition kind_invalid (k : string) : bool := negb (str_in k allowed_kinds).

(** A requested category that is not a column of the table. *)
Definition category_missing (df : DataFrame) (cat : string) : bool :=
  negb (str_in cat (columns df)).

(** A headerless file of three timestamps, one per line. *)
Definition three_timestamps : list string :=
  ["2025-09-16 02:35:00"; "2025-09-16 16:35:00"; "2025-09-17 06:35:00"].

(** A small file system: that file, a file of two columns, an empty file,
    a file with a header line only, a file of digits and a file with a
    marker of a missing value. *)
Definition sample_files : list (string * string) :=
  [("stamps.csv", join_lines three_timestamps);
   ("pairs.csv", join_lines ["day,hour"; "16,2"; "17,6"]);
   ("empty.csv", "");
   ("header.csv", "timestamp");
   ("digits.csv", join_lines ["stamp"; "20250916"; "20250917"]);
   ("gaps.csv", join_lines ["stamp"; "2025-09-16 02:35:00"; "NA"])].

(** Text without a character satisfying [p]. *)
Fixpoint free_of (p : ascii -> bool) (s : string) : bool :=
  match s with
  | EmptyString => true
  | String c rest => negb (p c) && free_of p rest
  end.

(** The world while [display] draws: one new figure on top of the canvas,
    not yet shown, holding the panels drawn so far. *)
Definition drawing (w0 : World) (j : nat) (w : World) : Prop :=
  exists fig,
    w = {| stdout := stdout w0; canvas := fig :: canvas w0 |} /\
    List.length (fig_panels fig) = j /\
    fig_shown fig = false.

(** The world after the generator has reported a failure. *)
Definition logged (e : exn) (w : World) : World :=
  {| stdout := stdout w ++ [GenerationFailed e]; canvas := canvas w |}.

(* ===================================================================== *)
(** ** Further notions used by the facts below *)

(** Days from the start of a 400-year cycle to 1 January of its year
    number [yy]. *)
Definition cycle_days_before (yy : Z) : Z :=
  365 * yy + (yy + 3) / 4 - (yy + 99) / 100 + (yy + 399) / 400.

(** Two tables with the same "timestamp" column and otherwise unrelated
    columns. *)
Definition sample_with_extra : DataFrame :=
  [("sensor", ObjectSeries ["a"; "b"]);
   ("timestamp", DatetimeSeries [0; 1757990100000000000])].

(** A raw table as a loader hands it over: text that parses. *)
Definition sample_raw : DataFrame :=
  [("timestamp", ObjectSeries ["2025-09-16 02:35:00"; "2025-09-20 16:35:00"]);
   ("sensor", ObjectSeries ["a"; "b"])].

(** The panel [display] draws for its [i]-th category. *)
Definition expected_panel `{Runtime} (df : DataFrame) (category kind title : list string)
    (i : nat) : Panel :=
  {| panel_axes := i;
     panel_kind := nth i kind "";
     panel_title := nth i title "";
     panel_data :=
       match lookup_column df (nth i category "") with
       | Some col => value_counts col
       | None => []
       end |}.

(** The figure [display] leaves behind for [n] categories. *)
Definition expected_figure `{Runtime} (df : DataFrame) (category kind title : list string)
  : Figure :=
  let n := List.length category in
  {| fig_axes := n;
     fig_size := (5 * Z.of_nat n, 4);
     fig_panels := map (expected_panel df category kind title) (seq 0 n);
     fig_tight := true;
     fig_shown := true |}.

(** The namespace [argparse] hands to the entry point: the flag
    [--example_synthetic] and the value of [--file], of which exactly one
    is given. *)
Record Namespace := {
  example_synthetic : bool;
  file : option string
}.

(** The entry point under [__main__]: the example when the flag is set,
    else the file pipeline when the path is a non-empty string. *)
Definition script_main `{Runtime} (args : Namespace) : IO unit :=
  if example_synthetic args then example_main_synthetic
  else
    match file args with
    | Some path =>
        if negb (String.eqb path "") then main_read_file path else io_ret tt
    | None => io_ret tt
    end.

(** The two panels both pipelines ask for. *)
Definition weekday_panels `{Runtime} (result_df : DataFrame) : Figure :=
  expected_figure result_df ["weekday_name"; "weekday_name"] ["bar"; "pie"]
    ["Activity Count by Day of Week"; "Days of the week"].

(** The counts both panels show. *)
Definition weekday_counts `{Runtime} (result_df : DataFrame) : list (scalar * nat) :=
  match lookup_column result_df "weekday_name" with
  | Some col => value_counts col
  | None => []
  end.

(** The figure of the two panels while it is drawn: the panels so far,
    not laid out and not shown. *)
Definition weekday_figure_with (panels : list Panel) : Figure :=
  {| fig_axes := 2; fig_size := (10, 4); fig_panels := panels;
     fig_tight := false; fig_shown := false |}.

(** The range of [periods] timestamps from [t0] in steps of [step]. *)
Definition periodic (t0 step : Z) (periods : Z) : list Timestamp :=
  map (fun i => t0 + Z.of_nat i * step) (seq 0 (Z.to_nat periods)).

(* ===================================================================== *)
(** * Facts *)

(** ** The calendar *)

Lemma is_leapyear_shift (q y : Z) : is_leapyear (400 * q + y) = is_leapyear y.
Proof.
  unfold is_leapyear.
  replace ((400 * q + y) mod 4) with (y mod 4)
    by (rewrite <- (Z.mod_add y (100 * q) 4) by lia; f_equal; lia).
  replace ((400 * q + y) mod 100) with (y mod 100)
    by (rewrite <- (Z.mod_add y (4 * q) 100) by lia; f_equal; lia).
  replace ((400 * q + y) mod 400) with (y mod 400)
    by (rewrite <- (Z.mod_add y q 400) by lia; f_equal; lia).
  reflexivity.
Qed.

Ltac split_ifs :=
  repeat match goal with
         | |- context [if ?b then _ else _] => destruct b eqn:?
         end.

Ltac bool_to_Z :=
  rewrite ?Z.leb_le, ?Z.leb_gt, ?Z.ltb_lt, ?Z.ltb_ge, ?andb_true_iff,
    ?andb_false_iff, ?orb_true_iff, ?orb_false_iff, ?negb_true_iff,
    ?negb_false_iff, ?Z.eqb_eq, ?Z.eqb_neq in *.

(** Inside the cycle the day of the year fits the year it is assigned to. *)
Lemma cycle_yearsdays_range (d : Z) :
  0 <= d < days_per_400years ->
  0 <= snd (cycle_yearsdays d) < days_in_year (2000 + fst (cycle_yearsdays d)).
Proof.
  intros Hd. unfold days_per_400years in Hd.
  unfold cycle_yearsdays, days_in_year, is_leapyear.
  split_ifs; cbn [fst snd] in *; bool_to_Z.
  all: try (Z.div_mod_to_equations; lia).
Qed.

Lemma days_to_yearsdays_range (days : Z) :
  0 <= snd (days_to_yearsdays days) < days_in_year (fst (days_to_yearsdays days)).
Proof.
  unfold days_to_yearsdays.
  set (d := days - (365 * 30 + 7)).
  assert (Hr : 0 <= d mod days_per_400years < days_per_400years)
    by (apply Z.mod_pos_bound; reflexivity).
  pose proof (cycle_yearsdays_range _ Hr) as H.
  destruct (cycle_yearsdays (d mod days_per_400years)) as [y yd].
  cbn [fst snd] in *.
  unfold days_in_year in *.
  replace (2000 + 400 * (d / days_per_400years) + y)
    with (400 * (d / days_per_400years) + (2000 + y)) by lia.
  now rewrite is_leapyear_shift.
Qed.

(** Walking the month table with a day of the year that fits the year ends
    on one of the twelve months. *)
Lemma month_and_day_range (leap : bool) (yd : Z) :
  0 <= yd < (if leap then 366 else 365) ->
  let md := month_and_day (days_per_month_table leap) 0 yd in
  1 <= fst md <= 12 /\ 1 <= snd md <= 31.
Proof.
  intros H. destruct leap; cbn [days_per_month_table month_and_day].
  all: split_ifs; cbn [fst snd]; bool_to_Z; lia.
Qed.

Lemma civil_from_days_range (days : Z) :
  1 <= c_month (civil_from_days days) <= 12 /\
  1 <= c_day (civil_from_days days) <= 31.
Proof.
  unfold civil_from_days.
  pose proof (days_to_yearsdays_range days) as H.
  destruct (days_to_yearsdays days) as [y yd]. cbn [fst snd] in H.
  unfold days_in_year in H.
  pose proof (month_and_day_range (is_leapyear y) yd H) as Hm.
  cbv zeta in Hm.
  destruct (month_and_day (days_per_month_table (is_leapyear y)) 0 yd) as [m d].
  exact Hm.
Qed.

Lemma ts_month_range (t : Timestamp) : 1 <= ts_month t <= 12.
Proof. apply civil_from_days_range. Qed.

Lemma ts_dayofweek_range (t : Timestamp) : 0 <= ts_dayofweek t <= 6.
Proof.
  unfold ts_dayofweek.
  pose proof (Z.mod_pos_bound (day_number t + 3) 7 eq_refl). lia.
Qed.

Lemma ts_hour_range (t : Timestamp) : 0 <= ts_hour t <= 23.
Proof.
  unfold ts_hour, ns_per_day, ns_per_hour, ns_per_minute, ns_per_second.
  Z.div_mod_to_equations. lia.
Qed.

(** The epoch is Thursday 1 January 1970, and the day before it a
    Wednesday. *)
Example epoch_is_thursday :
  (ts_year 0, ts_month 0, ts_day 0, ts_dayofweek 0, ts_day_name 0)
  = (1970, 1, 1, 3, "Thursday").
Proof. reflexivity. Qed.

Example before_epoch_is_wednesday :
  (ts_year (-1), ts_month (-1), ts_day (-1), ts_hour (-1), ts_dayofweek (-1))
  = (1969, 12, 31, 23, 2).
Proof. reflexivity. Qed.

(** Leap day of 2000, read from text and back. *)
Example leap_day_2000 :
  option_map (fun t => (ts_year t, ts_month t, ts_day t, ts_day_name t))
             (iso_date "2000-02-29")
  = Some (2000, 2, 29, "Tuesday").
Proof. reflexivity. Qed.

(** *** Reading a date and reading its fields back *)

Lemma days_before_year_cycle (q yy : Z) :
  0 <= yy < 400 ->
  days_before_year (2000 + 400 * q + yy) - (365 * 30 + 7)
  = days_per_400years * q
    + (365 * yy + (yy + 3) / 4 - (yy + 99) / 100 + (yy + 399) / 400).
Proof.
  intros H. unfold days_before_year, days_per_400years.
  Z.div_mod_to_equations. lia.
Qed.

Lemma cycle_yearsdays_of_year (yy yd : Z) :
  0 <= yy < 400 ->
  0 <= yd < days_in_year (2000 + yy) ->
  cycle_yearsdays (365 * yy + (yy + 3) / 4 - (yy + 99) / 100 + (yy + 399) / 400 + yd)
  = (yy, yd).
Proof.
  intros Hy. unfold days_in_year, is_leapyear, cycle_yearsdays.
  split_ifs; bool_to_Z; intros Hd.
  all: try (f_equal; Z.div_mod_to_equations; lia).
  all: try (exfalso; Z.div_mod_to_equations; lia).
Qed.

Lemma cycle_offset_range (yy yd : Z) :
  0 <= yy < 400 ->
  0 <= yd < days_in_year (2000 + yy) ->
  0 <= 365 * yy + (yy + 3) / 4 - (yy + 99) / 100 + (yy + 399) / 400 + yd
    < days_per_400years.
Proof.
  intros Hy. unfold days_in_year, is_leapyear, days_per_400years.
  split_ifs; bool_to_Z; intros Hd; Z.div_mod_to_equations; lia.
Qed.

(** The day number of the [yd]-th day of year [y] splits back into [y] and
    [yd]. *)
Lemma days_to_yearsdays_of_year (y yd : Z) :
  0 <= yd < days_in_year y ->
  days_to_yearsdays (days_before_year y + yd) = (y, yd).
Proof.
  intros Hd.
  assert (Hsplit : exists q yy, 0 <= yy < 400 /\ y = 2000 + 400 * q + yy).
  { exists ((y - 2000) / 400), ((y - 2000) mod 400).
    split; [apply Z.mod_pos_bound; lia |].
    pose proof (Z.div_mod (y - 2000) 400 ltac:(lia)). lia. }
  destruct Hsplit as (q & yy & Hyy & ->).
  assert (Hleap : days_in_year (2000 + 400 * q + yy) = days_in_year (2000 + yy)).
  { unfold days_in_year.
    replace (2000 + 400 * q + yy) with (400 * q + (2000 + yy)) by lia.
    now rewrite is_leapyear_shift. }
  rewrite Hleap in Hd.
  pose proof (cycle_offset_range yy yd Hyy Hd) as Hr.
  pose proof (days_before_year_cycle q yy Hyy) as Hc.
  unfold days_to_yearsdays.
  replace (days_before_year (2000 + 400 * q + yy) + yd - (365 * 30 + 7))
    with ((365 * yy + (yy + 3) / 4 - (yy + 99) / 100 + (yy + 399) / 400 + yd)
          + q * days_per_400years)
    by lia.
  rewrite Z.mod_add by discriminate.
  rewrite Z.div_add by discriminate.
  rewrite (Z.mod_small _ _ Hr), (Z.div_small _ _ Hr).
  rewrite (cycle_yearsdays_of_year yy yd Hyy Hd).
  f_equal; lia.
Qed.

Lemma month_and_day_of_date (leap : bool) (m d : Z) :
  1 <= m <= 12 ->
  1 <= d <= nth (Z.to_nat (m - 1)) (days_per_month_table leap) 0 ->
  month_and_day (days_per_month_table leap) 0 (days_before_month leap m + (d - 1))
  = (m, d) /\
  0 <= days_before_month leap m + (d - 1) < (if leap then 366 else 365).
Proof.
  intros Hm.
  assert (Hc : m = 1 \/ m = 2 \/ m = 3 \/ m = 4 \/ m = 5 \/ m = 6 \/ m = 7 \/
               m = 8 \/ m = 9 \/ m = 10 \/ m = 11 \/ m = 12) by lia.
  unfold days_before_month.
  repeat (destruct Hc as [-> | Hc]);
    try subst m; destruct leap;
    repeat match goal with
           | |- context [Z.to_nat ?e] =>
               let v := eval vm_compute in (Z.to_nat e) in
               change (Z.to_nat e) with v
           end;
    cbn [days_per_month_table firstn fold_right nth month_and_day]; intros Hd;
    (split; [split_ifs; bool_to_Z; try lia; f_equal; lia | lia]).
Qed.

(** A valid date is recovered from its day number. *)
Lemma civil_from_days_from_civil (y m d : Z) :
  valid_date y m d = true ->
  civil_from_days (days_from_civil y m d)
  = {| c_year := y; c_month := m; c_day := d |}.
Proof.
  unfold valid_date, days_in_month. intros H. bool_to_Z.
  destruct H as [[[Hm1 Hm2] Hd1] Hd2].
  destruct (month_and_day_of_date (is_leapyear y) m d) as [Hmd Hyd]; [lia | lia |].
  unfold civil_from_days, days_from_civil.
  replace (days_before_year y + days_before_month (is_leapyear y) m + (d - 1))
    with (days_before_year y + (days_before_month (is_leapyear y) m + (d - 1)))
    by lia.
  rewrite days_to_yearsdays_of_year by exact Hyd.
  now rewrite Hmd.
Qed.

(** The calendar fields of the instant [hh:mm:ss] on a valid date. *)
Lemma timestamp_fields (y m d hh mm ss : Z) :
  valid_date y m d = true ->
  0 <= hh < 24 -> 0 <= mm < 60 -> 0 <= ss < 60 ->
  let t := days_from_civil y m d * ns_per_day
           + (hh * ns_per_hour + mm * ns_per_minute + ss * ns_per_second) in
  ts_year t = y /\ ts_month t = m /\ ts_day t = d /\ ts_hour t = hh /\
  ts_dayofweek t = (days_from_civil y m d + 3) mod 7.
Proof.
  intros Hv Hh Hm Hs t.
  assert (Hday : day_number t = days_from_civil y m d).
  { unfold day_number, t, ns_per_day, ns_per_hour, ns_per_minute, ns_per_second.
    Z.div_mod_to_equations. lia. }
  unfold ts_year, ts_month, ts_day, ts_dayofweek.
  rewrite Hday, (civil_from_days_from_civil y m d Hv). cbn [c_year c_month c_day].
  repeat split.
  unfold ts_hour, t, ns_per_day, ns_per_hour, ns_per_minute, ns_per_second.
  Z.div_mod_to_equations. lia.
Qed.

(** ** Frames *)

Lemma str_in_columns_of_lookup (df : DataFrame) (name : string) (s : Series) :
  lookup_column df name = Some s -> str_in name (columns df) = true.
Proof.
  unfold str_in, columns.
  induction df as [| [n s0] rest IH]; cbn; [discriminate |].
  rewrite (String.eqb_sym name n).
  destruct (String.eqb n name); [reflexivity | exact IH].
Qed.

Lemma lookup_of_str_in_columns (df : DataFrame) (name : string) :
  str_in name (columns df) = true -> exists s, lookup_column df name = Some s.
Proof.
  unfold str_in, columns.
  induction df as [| [n s0] rest IH]; cbn; [discriminate |].
  rewrite (String.eqb_sym name n).
  destruct (String.eqb n name); [eauto | exact IH].
Qed.

Lemma lookup_none_of_str_in_columns (df : DataFrame) (name : string) :
  str_in name (columns df) = false -> lookup_column df name = None.
Proof.
  intros H. destruct (lookup_column df name) eqn:E; [| reflexivity].
  apply str_in_columns_of_lookup in E. congruence.
Qed.

Lemma lookup_setitem_same (df : DataFrame) (name : string) (s : Series) :
  lookup_column (setitem df name s) name = Some s.
Proof.
  induction df as [| [n s0] rest IH]; cbn.
  - now rewrite String.eqb_refl.
  - destruct (String.eqb n name) eqn:E; cbn; rewrite E; [reflexivity | exact IH].
Qed.

Lemma columns_setitem_present (df : DataFrame) (name : string) (s s0 : Series) :
  lookup_column df name = Some s0 -> columns (setitem df name s) = columns df.
Proof.
  unfold columns.
  induction df as [| [n s1] rest IH]; cbn; [discriminate |].
  destruct (String.eqb n name); cbn; [reflexivity |].
  intros H. now rewrite (IH H).
Qed.

Lemma setitem_Forall (Q : Series -> Prop) (df : DataFrame) (name : string) (s : Series) :
  Forall (fun c => Q (snd c)) df -> Q s ->
  Forall (fun c => Q (snd c)) (setitem df name s).
Proof.
  intros Hall Hs.
  induction Hall as [| [n s0] rest Hhd Htl IH]; cbn.
  - constructor; [exact Hs | constructor].
  - destruct (String.eqb n name); constructor; auto.
Qed.

Lemma lookup_Forall (Q : Series -> Prop) (df : DataFrame) (name : string) (s : Series) :
  Forall (fun c => Q (snd c)) df -> lookup_column df name = Some s -> Q s.
Proof.
  intros Hall.
  induction Hall as [| [n s0] rest Hhd Htl IH]; cbn; [discriminate |].
  destruct (String.eqb n name); [intros [= <-]; exact Hhd | exact IH].
Qed.

Lemma lookup_aligned (df : DataFrame) (name : string) (s : Series) :
  frame_aligned df -> lookup_column df name = Some s -> series_len s = nrows df.
Proof.
  intros Hal.
  exact (lookup_Forall (fun c => series_len c = nrows df) df name s Hal).
Qed.

Lemma nrows_setitem_present (df : DataFrame) (name : string) (s s0 : Series) :
  lookup_column df name = Some s0 ->
  series_len s = series_len s0 ->
  nrows (setitem df name s) = nrows df.
Proof.
  destruct df as [| [n1 s1] rest]; cbn; [discriminate |].
  destruct (String.eqb n1 name); cbn; [| reflexivity].
  intros [= <-] H. exact H.
Qed.

Lemma setitem_aligned (df : DataFrame) (name : string) (s s0 : Series) :
  frame_aligned df ->
  lookup_column df name = Some s0 ->
  series_len s = series_len s0 ->
  frame_aligned (setitem df name s).
Proof.
  intros Hal Hlk Hlen. unfold frame_aligned.
  rewrite (nrows_setitem_present df name s s0 Hlk Hlen).
  apply (setitem_Forall (fun c => series_len c = nrows df)); [exact Hal |].
  rewrite Hlen. eapply lookup_aligned; eauto.
Qed.

Lemma exc_map_length {A B} (f : A -> Exc B) (xs : list A) (ys : list B) :
  exc_map f xs = Return ys -> List.length ys = List.length xs.
Proof.
  revert ys. induction xs as [| x rest IH]; cbn; intros ys.
  - intros [= <-]. reflexivity.
  - destruct (f x) as [y | e]; cbn; [| discriminate].
    destruct (exc_map f rest) as [ys' | e]; cbn; [| discriminate].
    intros [= <-]. cbn. now rewrite (IH ys' eq_refl).
Qed.

(** [exc_map] raises exactly when some cell does, and then what the first
    such cell raises. *)
Lemma exc_map_raises {A B} (f : A -> Exc B) (xs : list A) :
  (exists x e, In x xs /\ f x = Raised e) ->
  exists x e, In x xs /\ f x = Raised e /\ exc_map f xs = Raised e.
Proof.
  induction xs as [| x rest IH]; intros (x0 & e0 & Hin & Hf); [destruct Hin |].
  cbn. destruct (f x) as [y | e] eqn:Ex.
  - destruct Hin as [-> | Hin]; [congruence |].
    destruct IH as (x1 & e1 & Hin1 & Hf1 & Hm); [eauto |].
    exists x1, e1. rewrite Hm. cbn. auto.
  - exists x, e. cbn. auto.
Qed.

Lemma exc_map_returns {A B} (f : A -> Exc B) (xs : list A) :
  (forall x, In x xs -> exists y, f x = Return y) ->
  exists ys, exc_map f xs = Return ys /\
             forall i x, nth_error xs i = Some x ->
                         exists y, nth_error ys i = Some y /\ f x = Return y.
Proof.
  induction xs as [| x rest IH]; intros Hall.
  - exists []. split; [reflexivity |]. intros [| i] x; discriminate.
  - destruct (Hall x (or_introl eq_refl)) as [y Hy].
    destruct IH as (ys & Hm & Hnth); [intros; apply Hall; now right |].
    exists (y :: ys). cbn. rewrite Hy, Hm. cbn. split; [reflexivity |].
    intros [| i] x0; cbn.
    + intros [= <-]. eauto.
    + apply Hnth.
Qed.

Lemma exc_map_inv {A B} (f : A -> Exc B) (xs : list A) (ys : list B) :
  exc_map f xs = Return ys -> Forall2 (fun x y => f x = Return y) xs ys.
Proof.
  revert ys. induction xs as [| x rest IH]; cbn; intros ys.
  - intros [= <-]. constructor.
  - destruct (f x) as [y | e] eqn:Ex; cbn; [| discriminate].
    destruct (exc_map f rest) as [ys' | e]; cbn; [| discriminate].
    intros [= <-]. constructor; [exact Ex | now apply IH].
Qed.

(** ** From a day number to the date and back *)

Lemma cycle_yearsdays_inverse (r : Z) :
  0 <= r < days_per_400years ->
  0 <= fst (cycle_yearsdays r) < 400 /\
  cycle_days_before (fst (cycle_yearsdays r)) + snd (cycle_yearsdays r) = r.
Proof.
  intros Hr. unfold days_per_400years in Hr.
  unfold cycle_yearsdays, cycle_days_before.
  split_ifs; cbn [fst snd]; bool_to_Z.
  all: Z.div_mod_to_equations; lia.
Qed.

(** The year and the day of the year give the day number back. *)
Lemma days_to_yearsdays_inverse (days : Z) :
  days_before_year (fst (days_to_yearsdays days)) + snd (days_to_yearsdays days)
  = days.
Proof.
  unfold days_to_yearsdays.
  set (d := days - (365 * 30 + 7)).
  assert (Hr : 0 <= d mod days_per_400years < days_per_400years)
    by (apply Z.mod_pos_bound; reflexivity).
  destruct (cycle_yearsdays_inverse _ Hr) as [Hy Hsum].
  pose proof (Z.div_mod d days_per_400years ltac:(discriminate)) as Hd.
  destruct (cycle_yearsdays (d mod days_per_400years)) as [yy yd].
  cbn [fst snd] in *.
  pose proof (days_before_year_cycle (d / days_per_400years) yy Hy) as Hc.
  fold (cycle_days_before yy) in Hc.
  unfold d in *. lia.
Qed.

(** The month found by walking the table, and the day in it, give the day
    of the year back; the day fits the month. *)
Lemma month_and_day_inverse (leap : bool) (yd : Z) :
  0 <= yd < (if leap then 366 else 365) ->
  let md := month_and_day (days_per_month_table leap) 0 yd in
  days_before_month leap (fst md) + (snd md - 1) = yd /\
  1 <= snd md <= nth (Z.to_nat (fst md - 1)) (days_per_month_table leap) 0.
Proof.
  intros H. destruct leap; cbn [days_per_month_table month_and_day].
  all: split_ifs; cbn [fst snd]; bool_to_Z.
  all: unfold days_before_month;
    repeat match goal with
           | |- context [Z.to_nat ?e] =>
               let v := eval vm_compute in (Z.to_nat e) in
               change (Z.to_nat e) with v
           end;
    cbn [days_per_month_table firstn fold_right nth]; lia.
Qed.

(** The date read off a day number is a valid date, and it is the date of
    that day. *)
Lemma civil_from_days_inverse (days : Z) :
  let c := civil_from_days days in
  valid_date (c_year c) (c_month c) (c_day c) = true /\
  days_from_civil (c_year c) (c_month c) (c_day c) = days.
Proof.
  unfold civil_from_days.
  pose proof (days_to_yearsdays_range days) as Hr.
  pose proof (days_to_yearsdays_inverse days) as Hi.
  destruct (days_to_yearsdays days) as [y yd]. cbn [fst snd] in *.
  unfold days_in_year in Hr.
  pose proof (month_and_day_range (is_leapyear y) yd Hr) as Hm.
  pose proof (month_and_day_inverse (is_leapyear y) yd Hr) as Hd.
  cbv zeta in Hm, Hd.
  destruct (month_and_day (days_per_month_table (is_leapyear y)) 0 yd) as [m d].
  cbn [fst snd c_year c_month c_day] in *.
  split.
  - unfold valid_date, days_in_month. bool_to_Z. lia.
  - unfold days_from_civil. lia.
Qed.

(** ** The calendar extractor on a normalized table *)

Lemma all_present_map_Some {A} (xs : list A) :
  all_present (map Some xs) = Some xs.
Proof.
  induction xs as [| x rest IH]; cbn; [reflexivity | now rewrite IH].
Qed.

Lemma map_option_map_Some {A B} (f : A -> B) (xs : list A) :
  map (option_map f) (map Some xs) = map Some (map f xs).
Proof.
  rewrite !map_map. reflexivity.
Qed.

Lemma int_column_len (cells : list (option Z)) :
  series_len (int_column cells) = List.length cells.
Proof.
  unfold int_column. destruct (all_present cells) as [v |] eqn:E; [| reflexivity].
  cbn. revert v E. induction cells as [| [x |] rest IH]; cbn; intros v E.
  - now injection E as <-.
  - destruct (all_present rest) as [v' |]; [| discriminate].
    injection E as <-. cbn. f_equal. now apply IH.
  - discriminate.
Qed.

Lemma all_present_length {A} (cells : list (option A)) (v : list A) :
  all_present cells = Some v -> List.length v = List.length cells.
Proof.
  revert v. induction cells as [| [x |] rest IH]; cbn; intros v E.
  - now injection E as <-.
  - destruct (all_present rest) as [v' |]; [| discriminate].
    injection E as <-. cbn. f_equal. now apply IH.
  - discriminate.
Qed.

Lemma all_present_cells {A} (cells : list (option A)) (v : list A) :
  all_present cells = Some v -> cells = map Some v.
Proof.
  revert v. induction cells as [| [x |] rest IH]; cbn; intros v E.
  - now injection E as <-.
  - destruct (all_present rest) as [v' |]; [| discriminate].
    injection E as <-. cbn. f_equal. now apply IH.
  - discriminate.
Qed.

Lemma datetime_column_dtype (cells : list (option Timestamp)) :
  is_datetime64_any_dtype (datetime_column cells) = true.
Proof. unfold datetime_column. now destruct (all_present cells). Qed.

Lemma datetime_column_len (cells : list (option Timestamp)) :
  series_len (datetime_column cells) = List.length cells.
Proof.
  unfold datetime_column. destruct (all_present cells) as [v |] eqn:E; [| reflexivity].
  cbn. now apply all_present_length.
Qed.

Lemma datetime_column_dt (cells : list (option Timestamp)) :
  dt (datetime_column cells) = Return cells.
Proof.
  unfold datetime_column. destruct (all_present cells) as [v |] eqn:E; [| reflexivity].
  cbn. now rewrite (all_present_cells _ _ E).
Qed.

(** A column of datetime dtype has its timestamps, NaT or not. *)
Lemma dt_of_datetime (s : Series) :
  is_datetime64_any_dtype s = true ->
  exists cells, dt s = Return cells /\ List.length cells = series_len s.
Proof.
  destruct s; try discriminate; intros _; cbn; eexists; split;
    try reflexivity; now rewrite ?length_map.
Qed.

(** The extractor accepts every column of datetime dtype. *)
Lemma extract_parts_datetime (df : DataFrame) (s : Series)
    (cells : list (option Timestamp)) :
  lookup_column df "timestamp" = Some s ->
  is_datetime64_any_dtype s = true ->
  dt s = Return cells ->
  extract_parts df = Return (derived_frame_of cells).
Proof.
  intros Hlk Hdt Hcells. unfold extract_parts.
  rewrite (str_in_columns_of_lookup _ _ _ Hlk). cbn [negb].
  unfold timestamp_field, getitem. rewrite Hlk.
  cbn [exc_bind]. rewrite Hdt, Hcells. reflexivity.
Qed.

Lemma derived_frame_of_present (ts : list Timestamp) :
  derived_frame_of (map Some ts) = derived_frame ts.
Proof.
  unfold derived_frame_of, derived_frame, str_slice_to, int_column, object_column.
  now rewrite !map_option_map_Some, !all_present_map_Some.
Qed.

Lemma derived_frame_of_shape (cells : list (option Timestamp)) :
  shape (derived_frame_of cells) = (List.length cells, 8%nat) /\
  columns (derived_frame_of cells) = derived_columns.
Proof.
  split; [| reflexivity].
  unfold shape, derived_frame_of. cbn [nrows ncols List.length].
  now rewrite int_column_len, length_map.
Qed.

Lemma extract_parts_normalized (df : DataFrame) (ts : list Timestamp) :
  lookup_column df "timestamp" = Some (DatetimeSeries ts) ->
  extract_parts df = Return (derived_frame ts).
Proof.
  intros Hlk. rewrite <- derived_frame_of_present.
  now apply (extract_parts_datetime df (DatetimeSeries ts)).
Qed.

Lemma normalized_rows (df : DataFrame) :
  normalized df ->
  exists ts, lookup_column df "timestamp" = Some (DatetimeSeries ts) /\
             List.length ts = nrows df.
Proof.
  intros [Hal [ts Hlk]]. exists ts. split; [exact Hlk |].
  exact (lookup_aligned df "timestamp" _ Hal Hlk).
Qed.

Lemma sample_is_normalized : normalized sample_normalized.
Proof.
  split; [repeat constructor | eexists; reflexivity].
Qed.

Lemma abbreviation_of_day_name (wd : Z) :
  0 <= wd <= 6 ->
  nth_error day_abbreviations (Z.to_nat wd)
  = Some (substring 0 3 (nth (Z.to_nat wd) DAYS_FULL "")).
Proof.
  intros H.
  assert (Hc : wd = 0 \/ wd = 1 \/ wd = 2 \/ wd = 3 \/ wd = 4 \/ wd = 5 \/ wd = 6)
    by lia.
  repeat (destruct Hc as [-> | Hc]; [reflexivity |]).
  subst. reflexivity.
Qed.

(** C2.  On every row of a normalized table, [extract_parts] numbers the
    weekday of the row's timestamp from Monday = 0 to Sunday = 6: the
    number is the weekday of the calendar date that the year, month and
    day columns show (the days since Monday 5 January 1970, modulo 7;
    equally the days since the epoch, a Thursday, plus 3, modulo 7), it
    indexes the Monday-first list of day abbreviations that the
    weekday_name column shows, and is_weekend is 1 exactly when that
    number is 5 or 6, and 0 otherwise. *)
Theorem extract_weekday_and_weekend (df : DataFrame) :
  normalized df ->
  exists new_df,
    extract_parts df = Return new_df /\
    forall i, (i < nrows df)%nat ->
      exists t y m d wd we,
        time_at df "timestamp" i = Some t /\
        int_at new_df "year" i = Some y /\
        int_at new_df "month" i = Some m /\
        int_at new_df "day" i = Some d /\
        int_at new_df "weekday" i = Some wd /\
        wd = ts_dayofweek t /\
        valid_date y m d = true /\
        days_from_civil y m d * 86400000000000 <= t
          < (days_from_civil y m d + 1) * 86400000000000 /\
        wd = (days_from_civil y m d - days_from_civil 1970 1 5) mod 7 /\
        (exists n, n * 86400000000000 <= t < (n + 1) * 86400000000000 /\
                   wd = (n + 3) mod 7) /\
        0 <= wd <= 6 /\
        str_at new_df "weekday_name" i
        = nth_error ["Mon"; "Tue"; "Wed"; "Thu"; "Fri"; "Sat"; "Sun"] (Z.to_nat wd) /\
        int_at new_df "is_weekend" i = Some we /\
        (we = 1 <-> wd = 5 \/ wd = 6) /\
        (we = 0 <-> ~ (wd = 5 \/ wd = 6)).
Proof.
  intros Hn. destruct (normalized_rows df Hn) as (ts & Hlk & Hlen).
  exists (derived_frame ts). split; [now apply extract_parts_normalized |].
  intros i Hi. rewrite <- Hlen in Hi.
  destruct (nth_error ts i) as [t |] eqn:Et;
    [| apply nth_error_None in Et; lia].
  pose proof (ts_dayofweek_range t) as Hr.
  exists t, (ts_year t), (ts_month t), (ts_day t), (ts_dayofweek t),
    (if (ts_dayofweek t =? 5) || ((ts_dayofweek t =? 6) || false) then 1 else 0).
  unfold time_at, int_at, str_at. rewrite Hlk.
  unfold derived_frame, astype_int, isin, cells.
  cbn [lookup_column String.eqb Ascii.eqb Bool.eqb].
  rewrite !nth_error_map, Et. cbn [option_map existsb scalar_eqb].
  destruct (civil_from_days_inverse (day_number t)) as [Hv Hd].
  cbv zeta in Hv, Hd.
  fold (ts_year t) (ts_month t) (ts_day t) in Hv, Hd.
  assert (Hday : day_number t * 86400000000000 <= t
                 < (day_number t + 1) * 86400000000000).
  { unfold day_number, ns_per_day, ns_per_hour, ns_per_minute, ns_per_second.
    Z.div_mod_to_equations. lia. }
  assert (Hwd : ts_dayofweek t = (day_number t + 3) mod 7) by reflexivity.
  assert (Hmon : days_from_civil 1970 1 5 = 4) by reflexivity.
  repeat match goal with |- _ /\ _ => split end;
    try reflexivity; try exact Hv; try lia.
  - rewrite Hd, Hmon, Hwd. Z.div_mod_to_equations. lia.
  - exists (day_number t). split; [exact Hday | exact Hwd].
  - unfold ts_day_name. symmetry.
    exact (abbreviation_of_day_name (ts_dayofweek t) Hr).
  - destruct (ts_dayofweek t =? 5) eqn:E5; destruct (ts_dayofweek t =? 6) eqn:E6;
      cbn; bool_to_Z; lia.
  - destruct (ts_dayofweek t =? 5) eqn:E5; destruct (ts_dayofweek t =? 6) eqn:E6;
      cbn; bool_to_Z; lia.
Qed.

Lemma extract_weekday_and_weekend_witness :
  normalized sample_normalized /\
  (int_at (derived_frame [0; 1757990100000000000]) "weekday" 0 = Some 3 /\
   str_at (derived_frame [0; 1757990100000000000]) "weekday_name" 0 = Some "Thu" /\
   int_at (derived_frame [0; 1757990100000000000]) "weekday" 1 = Some 1 /\
   str_at (derived_frame [0; 1757990100000000000]) "weekday_name" 1 = Some "Tue" /\
   int_at (derived_frame [0; 1757990100000000000]) "is_weekend" 1 = Some 0) /\
  exists new_df,
    extract_parts sample_normalized = Return new_df /\
    forall i, (i < nrows sample_normalized)%nat ->
      exists t y m d wd we,
        time_at sample_normalized "timestamp" i = Some t /\
        int_at new_df "year" i = Some y /\
        int_at new_df "month" i = Some m /\
        int_at new_df "day" i = Some d /\
        int_at new_df "weekday" i = Some wd /\
        wd = ts_dayofweek t /\
        valid_date y m d = true /\
        days_from_civil y m d * 86400000000000 <= t
          < (days_from_civil y m d + 1) * 86400000000000 /\
        wd = (days_from_civil y m d - days_from_civil 1970 1 5) mod 7 /\
        (exists n, n * 86400000000000 <= t < (n + 1) * 86400000000000 /\
                   wd = (n + 3) mod 7) /\
        0 <= wd <= 6 /\
        str_at new_df "weekday_name" i
        = nth_error ["Mon"; "Tue"; "Wed"; "Thu"; "Fri"; "Sat"; "Sun"] (Z.to_nat wd) /\
        int_at new_df "is_weekend" i = Some we /\
        (we = 1 <-> wd = 5 \/ wd = 6) /\
        (we = 0 <-> ~ (wd = 5 \/ wd = 6)).
Proof.
  split; [exact sample_is_normalized |].
  split; [repeat split; vm_compute; reflexivity |].
  apply (extract_weekday_and_weekend sample_normalized).
  exact sample_is_normalized.
Defined.

Lemma quarter_is_ceiling (m : Z) : (m - 1) / 3 + 1 = ceil_div m 3.
Proof. unfold ceil_div. Z.div_mod_to_equations. lia. Qed.



(** C4.  From a normalized table [extract_parts] returns a table with the
    same number of rows whose columns are exactly the eight derived ones,
    each as long as the table; the "timestamp" column is not among them. *)
Theorem extract_shape (df : DataFrame) :
  normalized df ->
  exists new_df,
    extract_parts df = Return new_df /\
    columns new_df = derived_columns /\
    shape new_df = (nrows df, 8%nat) /\
    frame_aligned new_df /\
    str_in "timestamp" (columns new_df) = false /\
    lookup_column new_df "timestamp" = None.
Proof.
  intros Hn. destruct (normalized_rows df Hn) as (ts & Hlk & Hlen).
  exists (derived_frame ts). split; [now apply extract_parts_normalized |].
  assert (Hrows : nrows (derived_frame ts) = nrows df)
    by (cbn; now rewrite length_map).
  split; [reflexivity |].
  split; [unfold shape; now rewrite Hrows |].
  split; [| split; reflexivity].
  unfold frame_aligned. rewrite Hrows, <- Hlen.
  unfold derived_frame, astype_int, isin, str_slice_to.
  repeat constructor; cbn; now rewrite ?length_map.
Qed.

Lemma extract_shape_witness :
  normalized sample_normalized /\
  exists new_df,
    extract_parts sample_normalized = Return new_df /\
    columns new_df = derived_columns /\
    shape new_df = (nrows sample_normalized, 8%nat) /\
    frame_aligned new_df /\
    str_in "timestamp" (columns new_df) = false /\
    lookup_column new_df "timestamp" = None.
Proof.
  split; [exact sample_is_normalized |].
  apply (extract_shape sample_normalized).
  exact sample_is_normalized.
Defined.

(** ** The generator, the loader and the normalizer *)

Section Stages.
Context `{RT : Runtime}.

(** The three ways [date_range] fails that the script's callers can cause:
    a frequency that is not one, a start that is not a date, a negative
    count. *)
Lemma date_range_invalid_freq (start freq : string) (periods : Z) (e : exn) :
  to_offset freq = Raised e -> date_range start periods freq = Raised e.
Proof. intros H. unfold date_range. now rewrite H. Qed.

Lemma date_range_invalid_start (start freq : string) (periods : Z)
    (offset : Offset) (e : exn) :
  to_offset freq = Return offset ->
  parse_datetime start = Raised e ->
  date_range start periods freq = Raised e.
Proof. intros Hf Hs. unfold date_range. now rewrite Hf, Hs. Qed.

Lemma date_range_negative_periods (start freq : string) (periods : Z)
    (offset : Offset) (t0 : Z) :
  to_offset freq = Return offset ->
  parse_datetime start = Return t0 ->
  periods < 0 ->
  date_range start periods freq = Raised negative_periods.
Proof.
  intros Hf Hs Hp. unfold date_range. rewrite Hf, Hs. cbn.
  apply Z.ltb_lt in Hp. now rewrite Hp.
Qed.

(** A count of zero is not a failure: the range is empty and the script
    returns a table without rows. *)
Lemma date_range_zero_periods (start freq : string) (step t0 : Z) :
  to_offset freq = Return (Tick step) ->
  parse_datetime start = Return t0 ->
  date_range start 0 freq = Return [].
Proof. intros Hf Hs. unfold date_range. now rewrite Hf, Hs. Qed.


(** When the timestamps are built the table is returned and nothing is
    printed. *)
Lemma create_periodic_dataframe_success
    (start : string) (periods : Z) (freq : string) (ts : list Timestamp) (w : World) :
  date_range start periods freq = Return ts ->
  create_periodic_dataframe start periods freq w
  = (Return (Some [("timestamp", DatetimeSeries ts)]), w).
Proof.
  intros H.
  unfold create_periodic_dataframe, io_try, io_bind, lift.
  rewrite H. reflexivity.
Qed.

Lemma load_single_column (path label : string) (values : Series) :
  path_exists path = true ->
  read_csv path = Return [(label, values)] ->
  load_dataframe_from_file path = Return [("timestamp", values)].
Proof.
  intros Hex Hdf. unfold load_dataframe_from_file.
  rewrite Hex, Hdf. reflexivity.
Qed.

(** The four outcomes of the loader, whatever the reader. *)
Lemma load_outcomes (path : string) :
  (path_exists path = false ->
   load_dataframe_from_file path = raise FileNotFoundError (FileMissing path)) /\
  (path_exists path = true ->
   forall e, read_csv path = Raised e ->
   load_dataframe_from_file path = raise ValueError (CsvReadFailed e)) /\
  (path_exists path = true ->
   forall df, read_csv path = Return df -> ncols df <> 1%nat ->
   load_dataframe_from_file path = raise ValueError OneColumnExpected) /\
  (path_exists path = true ->
   forall label values, read_csv path = Return [(label, values)] ->
   load_dataframe_from_file path = Return [("timestamp", values)]).
Proof.
  unfold load_dataframe_from_file.
  repeat split; intros Hex; rewrite Hex; cbn [negb]; [reflexivity | | |].
  - intros e He. now rewrite He.
  - intros df Hdf Hn. rewrite Hdf.
    apply Nat.eqb_neq in Hn.
    unfold shape. cbn [try_except exc_bind snd]. now rewrite Hn.
  - intros label values Hdf. rewrite Hdf. reflexivity.
Qed.

(** ** What [pd.to_datetime] returns *)

Lemma to_datetime_text (s : Series) (cells : list (option string)) :
  text_cells s = Some cells ->
  to_datetime s
  = (out <- to_datetime_cells cells ;; Return (datetime_column out))%exc.
Proof. destruct s; cbn; intros [= <-]; reflexivity. Qed.

Lemma convert_cell_missing (format : option string) (c : option string)
    (o : option Timestamp) :
  convert_cell format c = Return o -> is_none o = is_null_cell c.
Proof.
  destruct c as [x |]; cbn; [| now intros [= <-]].
  destruct (is_nat_text x); [now intros [= <-] |].
  destruct (parse_with_format format x); cbn; [| discriminate].
  now intros [= <-].
Qed.

Lemma convert_cells_missing (format : option string)
    (cells : list (option string)) (out : list (option Timestamp)) :
  exc_map (convert_cell format) cells = Return out ->
  map is_none out = map is_null_cell cells.
Proof.
  intros H. apply exc_map_inv in H.
  induction H as [| c o cells' out' Hc _ IH]; [reflexivity |].
  cbn. now rewrite (convert_cell_missing _ _ _ Hc), IH.
Qed.

(** Whatever [to_datetime] returns is a datetime column of the same
    length, with NaT exactly where the cell was missing. *)
Lemma to_datetime_returns (s s' : Series) :
  to_datetime s = Return s' ->
  exists cells,
    s' = datetime_column cells /\
    List.length cells = series_len s /\
    map is_none cells = missing_for_datetime s.
Proof.
  destruct s as [texts | ns | ts | texts | nums | cells0]; cbn [to_datetime].
  - unfold to_datetime_cells.
    destruct (exc_map _ (map Some texts)) as [out | e] eqn:Em; cbn; [| discriminate].
    intros [= <-]. exists out. split; [reflexivity |]. split.
    + rewrite (exc_map_length _ _ _ Em). cbn. now rewrite length_map.
    + rewrite (convert_cells_missing _ _ _ Em). cbn. now rewrite map_map.
  - intros [= <-]. exists (map nat_if_iNaT ns). split; [reflexivity |]. split.
    + cbn. now rewrite length_map.
    + cbn. rewrite map_map. apply map_ext. intros z. unfold nat_if_iNaT.
      now destruct (z =? iNaT).
  - intros [= <-]. exists (map Some ts). split.
    + unfold datetime_column. now rewrite all_present_map_Some.
    + split; cbn; [now rewrite length_map | now rewrite map_map].
  - unfold to_datetime_cells.
    destruct (exc_map _ texts) as [out | e] eqn:Em; cbn; [| discriminate].
    intros [= <-]. exists out. split; [reflexivity |]. split.
    + now rewrite (exc_map_length _ _ _ Em).
    + now rewrite (convert_cells_missing _ _ _ Em).
  - intros [= <-]. exists nums. repeat split.
  - intros [= <-]. exists cells0. repeat split.
Qed.

(** A datetime column is returned as it is. *)
Lemma to_datetime_datetime_column (cells : list (option Timestamp)) :
  to_datetime (datetime_column cells) = Return (datetime_column cells).
Proof.
  unfold datetime_column. destruct (all_present cells) as [v |] eqn:E; cbn.
  - reflexivity.
  - unfold datetime_column. now rewrite E.
Qed.

(** What the normalizer returns is its input with the converted column. *)
Lemma convert_returns_inversion (df out : DataFrame) :
  convert_to_datetime df = Return out ->
  exists s s',
    lookup_column df "timestamp" = Some s /\
    to_datetime s = Return s' /\
    out = setitem df "timestamp" s'.
Proof.
  unfold convert_to_datetime.
  destruct (str_in "timestamp" (columns df)) eqn:Hin; cbn [negb]; [| discriminate].
  destruct (lookup_of_str_in_columns _ _ Hin) as [s Hlk].
  unfold copy, getitem. rewrite Hlk. cbn [exc_bind].
  destruct (to_datetime s) as [s' | e] eqn:Et; cbn; [| discriminate].
  intros [= <-]. exists s, s'. repeat split; assumption.
Qed.

Lemma convert_to_datetime_column (df : DataFrame) (s : Series) :
  lookup_column df "timestamp" = Some s ->
  convert_to_datetime df
  = try_except (converted <- to_datetime s ;;
                Return (setitem df "timestamp" converted))%exc
               (fun e => raise ValueError (DatetimeConversionFailed e)).
Proof.
  intros Hlk. unfold convert_to_datetime.
  rewrite (str_in_columns_of_lookup _ _ _ Hlk). cbn [negb].
  unfold copy, getitem. now rewrite Hlk.
Qed.

(** What [convert_to_datetime] returns for an aligned table is aligned,
    with a datetime column of as many rows under the same labels. *)
Lemma convert_to_datetime_aligned (df out : DataFrame) :
  frame_aligned df ->
  convert_to_datetime df = Return out ->
  frame_aligned out /\ nrows out = nrows df /\ columns out = columns df /\
  exists s', lookup_column out "timestamp" = Some s' /\
             is_datetime64_any_dtype s' = true /\
             series_len s' = nrows df.
Proof.
  intros Hal Hc.
  destruct (convert_returns_inversion df out Hc) as (s & s' & Hlk & Ht & ->).
  destruct (to_datetime_returns s s' Ht) as (cells & -> & Hlen & _).
  assert (Hs : series_len (datetime_column cells) = series_len s)
    by now rewrite datetime_column_len.
  repeat split.
  - eapply setitem_aligned; eauto.
  - eapply nrows_setitem_present; eauto.
  - eapply columns_setitem_present; eauto.
  - exists (datetime_column cells). split; [apply lookup_setitem_same |].
    split; [apply datetime_column_dtype |].
    rewrite Hs. exact (lookup_aligned df "timestamp" _ Hal Hlk).
Qed.


End Stages.




(** ** The visualizer *)

Section Visualizer.
Context `{RT : Runtime}.

(** C7, as the code has it.  A call with a kind outside the enumeration
    draws nothing and leaves the world as it was.  When every requested
    category is a column of the table it raises KeyError listing exactly
    the invalid kinds, in request order; when a category is missing as
    well, the check of the categories comes first and the KeyError lists
    the missing columns instead. *)
Theorem display_rejects_invalid_kinds
    (df : DataFrame) (category kind title : list string) (w : World) :
  existsb kind_invalid kind = true ->
  snd (display df category kind title w) = w /\
  panels_drawn (snd (display df category kind title w)) = panels_drawn w /\
  (existsb (category_missing df) category = false ->
   fst (display df category kind title w)
   = raise KeyError (KindsNotAllowed (filter kind_invalid kind))) /\
  (existsb (category_missing df) category = true ->
   fst (display df category kind title w)
   = raise KeyError (ColumnsAbsent (filter (category_missing df) category))).
Proof.
  intros Hk. unfold display.
  change (fun k : string => negb (str_in k allowed_kinds)) with kind_invalid.
  change (fun cat : string => negb (str_in cat (columns df)))
    with (category_missing df).
  rewrite Hk.
  destruct (existsb (category_missing df) category); cbn;
    repeat split; intros; congruence.
Qed.

Lemma drawing_add_panel (w0 w : World) (j : nat) (p : Panel) :
  drawing w0 j w -> drawing w0 (S j) (update_current (add_panel p) w).
Proof.
  intros (fig & -> & Hlen & Hshown).
  exists (add_panel p fig). cbn. repeat split; [| exact Hshown].
  rewrite length_app, Hlen. cbn. lia.
Qed.

Lemma existsb_false_all {A} (p : A -> bool) (xs : list A) :
  existsb p xs = false -> forall x, In x xs -> p x = false.
Proof.
  induction xs as [| y rest IH]; cbn; intros H x Hin; [destruct Hin |].
  apply orb_false_iff in H. destruct H as [Hy Hrest].
  destruct Hin as [<- | Hin]; [exact Hy | now apply IH].
Qed.

Lemma io_bind_run {A B} (c : IO A) (k : A -> IO B) (w : World) :
  io_bind c k w =
  match c w with
  | (Return a, w') => k a w'
  | (Raised e, w') => (Raised e, w')
  end.
Proof. reflexivity. Qed.

Lemma drawing_panels (w0 w : World) (j : nat) :
  drawing w0 j w ->
  List.length (panels_drawn w) = (j + List.length (panels_drawn w0))%nat.
Proof.
  intros (fig & -> & Hlen & _). unfold panels_drawn. cbn.
  now rewrite length_app, Hlen.
Qed.

Lemma for_each_app {A} (xs ys : list A) (body : A -> IO unit) (w : World) :
  for_each (xs ++ ys) body w =
  match for_each xs body w with
  | (Return _, w') => for_each ys body w'
  | (Raised e, w') => (Raised e, w')
  end.
Proof.
  revert w. induction xs as [| x rest IH]; intros w; cbn; [reflexivity |].
  unfold io_bind. destruct (body x w) as [[[] | e] w']; [apply IH | reflexivity].
Qed.

(** A stretch of the loop in which every iteration draws its panel. *)
Lemma for_each_draws (body : nat -> IO unit) (w0 : World) (len a j : nat) (w : World) :
  (forall i w', (a <= i < a + len)%nat ->
     exists p, body i w' = (Return tt, update_current (add_panel p) w')) ->
  drawing w0 j w ->
  exists w', for_each (seq a len) body w = (Return tt, w') /\
             drawing w0 (j + len) w'.
Proof.
  revert a j w. induction len as [| len IH]; intros a j w Hbody Hd; cbn.
  - exists w. rewrite Nat.add_0_r. split; [reflexivity | exact Hd].
  - destruct (Hbody a w ltac:(lia)) as [p Hp].
    unfold io_bind. rewrite Hp.
    destruct (IH (S a) (S j) (update_current (add_panel p) w)) as (w' & Hrun & Hd').
    + intros i w'' Hi. apply Hbody. lia.
    + now apply drawing_add_panel.
    + exists w'. split; [exact Hrun |].
      replace (j + S len)%nat with (S j + len)%nat by lia. exact Hd'.
Qed.

Lemma list_index_in_range {A} (xs : list A) (i : nat) :
  (i < List.length xs)%nat -> exists x, list_index xs i = Return x /\ In x xs.
Proof.
  intros Hi. unfold list_index.
  destruct (nth_error xs i) as [x |] eqn:E.
  - exists x. split; [reflexivity | eapply nth_error_In; eauto].
  - apply nth_error_None in E. lia.
Qed.

Lemma list_index_out_of_range {A} (xs : list A) (i : nat) :
  (List.length xs <= i)%nat ->
  list_index xs i = raise IndexError (Text "list index out of range").
Proof.
  intros Hi. unfold list_index.
  apply nth_error_None in Hi. now rewrite Hi.
Qed.

(** The axes the script indexes: wrapped in a list when alone, the array
    otherwise; either way index [i] is axes number [i]. *)
Lemma axes_index_in_range (n i : nat) :
  (i < n)%nat ->
  axes_index (if Nat.eqb n 1
              then Listed [if Nat.eqb n 1 then Axes 0 else AxesArray (seq 0 n)]
              else Bare (if Nat.eqb n 1 then Axes 0 else AxesArray (seq 0 n))) i
  = Return (Axes i).
Proof.
  intros Hi. destruct (Nat.eqb n 1) eqn:E.
  - apply Nat.eqb_eq in E. subst n. assert (i = 0)%nat as -> by lia. reflexivity.
  - cbn. rewrite (nth_error_nth' (seq 0 n) 0%nat) by (rewrite length_seq; exact Hi).
    now rewrite seq_nth.
Qed.

(** C9.  [display] never compares the lengths of its three lists.  When all
    categories and kinds pass validation but the kind list or the title
    list is shorter than the category list, and the plotting backend
    accepts the requested kinds, the call opens the figure, draws the
    panels that have both a kind and a title, and then fails with the
    IndexError of Python's list indexing; the figure is never shown. *)
Theorem display_short_lists_index_error
    (df : DataFrame) (category kind title : list string) (w : World) :
  existsb (category_missing df) category = false ->
  existsb kind_invalid kind = false ->
  (List.length kind < List.length category
   \/ List.length title < List.length category)%nat ->
  (forall i, (i < Nat.min (List.length kind) (List.length title))%nat ->
     plot_refusal (nth i kind "")
       (panel_data (expected_panel df category kind title i)) = None) ->
  exists w',
    display df category kind title w
    = (raise IndexError (Text "list index out of range"), w') /\
    drawing w (Nat.min (List.length kind) (List.length title)) w' /\
    List.length (panels_drawn w')
    = (Nat.min (List.length kind) (List.length title)
       + List.length (panels_drawn w))%nat.
Proof.
  intros Hcat Hkind Hshort Hplot. unfold display.
  change (fun k : string => negb (str_in k allowed_kinds)) with kind_invalid.
  change (fun cat : string => negb (str_in cat (columns df)))
    with (category_missing df).
  rewrite Hcat, Hkind.
  remember (List.length category) as n eqn:En.
  set (m := Nat.min (List.length kind) (List.length title)).
  assert (Hm : (m < n)%nat) by (unfold m; lia).
  set (w1 := {| stdout := stdout w;
                canvas := {| fig_axes := n; fig_size := (5 * Z.of_nat n, 4);
                             fig_panels := []; fig_tight := false;
                             fig_shown := false |} :: canvas w |}).
  assert (Hsub : subplots n (5 * Z.of_nat n, 4) w
                 = (Return (if Nat.eqb n 1 then Axes 0 else AxesArray (seq 0 n)), w1))
    by (unfold subplots; destruct n; [lia | reflexivity]).
  assert (Hd0 : drawing w 0 w1) by (eexists; repeat split).
  rewrite io_bind_run, Hsub.
  set (body := fun i : nat => _).
  assert (Hcol : forall c, In c category -> exists col, getitem df c = Return col).
  { intros c Hinc.
    pose proof (existsb_false_all _ _ Hcat c Hinc) as Hc.
    unfold category_missing in Hc. apply negb_false_iff in Hc.
    destruct (lookup_of_str_in_columns _ _ Hc) as [col Hl].
    exists col. unfold getitem. now rewrite Hl. }
  replace (seq 0 n) with (seq 0 m ++ seq m (S (n - m - 1)))%list
    by (rewrite <- seq_app; f_equal; lia).
  rewrite io_bind_run, for_each_app.
  destruct (for_each_draws body w m 0 0 w1) as (w2 & Hrun & Hd2);
    [| exact Hd0 |].
  { intros i w' Hi. unfold body.
    assert (Hc : list_index category i = Return (nth i category "")).
    { unfold list_index. rewrite (nth_error_nth' category "") by lia. reflexivity. }
    assert (Hk : list_index kind i = Return (nth i kind "")).
    { unfold list_index. rewrite (nth_error_nth' kind "") by lia. reflexivity. }
    assert (Ht : list_index title i = Return (nth i title "")).
    { unfold list_index. rewrite (nth_error_nth' title "") by lia. reflexivity. }
    assert (Hinc : In (nth i category "") category) by (apply nth_In; lia).
    destruct (Hcol _ Hinc) as [col Hcol'].
    specialize (Hplot i ltac:(lia)).
    unfold expected_panel in Hplot. cbn [panel_data] in Hplot.
    assert (Hl : lookup_column df (nth i category "") = Some col).
    { unfold getitem in Hcol'.
      destruct (lookup_column df (nth i category "")); [| discriminate].
      now injection Hcol' as ->. }
    rewrite Hl in Hplot.
    eexists. unfold io_bind, lift.
    rewrite Hc, Hcol', Hk, (axes_index_in_range n i) by lia. rewrite Ht.
    unfold series_plot. rewrite Hplot. reflexivity. }
  rewrite Hrun.
  exists w2. split; [| split; [exact Hd2 | now apply drawing_panels]].
  cbn [seq for_each]. rewrite io_bind_run. unfold body at 1.
  destruct (list_index_in_range category m) as (c & Hc & Hinc); [lia |].
  destruct (Hcol c Hinc) as [col Hcol'].
  unfold io_bind, lift. rewrite Hc, Hcol'.
  destruct (Nat.le_gt_cases (List.length kind) (List.length title)) as [Hle | Hgt].
  - rewrite (list_index_out_of_range kind m) by (unfold m; lia). reflexivity.
  - destruct (list_index_in_range kind m) as (k & Hk & _); [unfold m; lia |].
    rewrite Hk, (axes_index_in_range n m) by lia.
    rewrite (list_index_out_of_range title m) by (unfold m; lia). reflexivity.
Qed.

End Visualizer.

(** ** Concrete runs *)

Lemma display_rejects_invalid_kinds_witness :
  existsb kind_invalid ["bar"; "triangle"; "pie"; "cone"] = true /\
  @display (reference []) sample_derived ["weekday_name"]
     ["bar"; "triangle"; "pie"; "cone"] ["a"] initial_world
  = (raise KeyError (KindsNotAllowed ["triangle"; "cone"]), initial_world).
Proof.
  split; [reflexivity |].
  destruct (@display_rejects_invalid_kinds (reference []) sample_derived
              ["weekday_name"] ["bar"; "triangle"; "pie"; "cone"] ["a"]
              initial_world eq_refl) as (Hw & _ & Hkinds & _).
  specialize (Hkinds eq_refl).
  destruct (@display (reference []) sample_derived ["weekday_name"]
              ["bar"; "triangle"; "pie"; "cone"] ["a"] initial_world) as [r w'].
  cbn [fst snd] in Hw, Hkinds. rewrite Hw, Hkinds. reflexivity.
Defined.

(** A call with the invalid kind "triangle" whose category is not a column
    of the table: the error raised is the one about the missing column, not
    the one listing the invalid kinds. *)
Lemma display_invalid_kind_counterexample :
  existsb kind_invalid ["triangle"] = true /\
  @display (reference []) sample_derived ["month"] ["triangle"] ["t"] initial_world
  = (raise KeyError (ColumnsAbsent ["month"]), initial_world) /\
  fst (@display (reference []) sample_derived ["month"] ["triangle"] ["t"]
         initial_world)
  <> raise KeyError (KindsNotAllowed ["triangle"]).
Proof.
  split; [reflexivity |]. split; [reflexivity |].
  cbn. discriminate.
Qed.

Lemma display_short_lists_index_error_witness :
  existsb (category_missing sample_derived) ["weekday_name"; "weekday_name"] = false /\
  existsb kind_invalid ["bar"] = false /\
  exists w',
    @display (reference []) sample_derived ["weekday_name"; "weekday_name"]
       ["bar"] ["Activity Count by Day of Week"; "Days of the week"] initial_world
    = (raise IndexError (Text "list index out of range"), w') /\
    drawing initial_world 1 w' /\
    List.length (panels_drawn w') = 1%nat.
Proof.
  split; [reflexivity |]. split; [reflexivity |].
  apply (@display_short_lists_index_error (reference []) sample_derived
           ["weekday_name"; "weekday_name"] ["bar"]
           ["Activity Count by Day of Week"; "Days of the week"] initial_world).
  - reflexivity.
  - reflexivity.
  - left. cbn. lia.
  - intros [| i] Hi; [reflexivity | cbn in Hi; lia].
Defined.

(** C8.  The synthetic example: 15 timestamps from 2025-09-16 02:35:00,
    14 hours apart.  The generator returns them without printing; after
    [convert_to_datetime] and [extract_parts] the table has 15 rows and the
    8 derived columns, and its first row's weekday_name is "Tue".  It is
    the table [example_main_synthetic] prints. *)
Theorem synthetic_example_first_row_is_tuesday :
  exists input_df transformed_df result_df,
    @create_periodic_dataframe (reference []) "2025-09-16 02:35:00" 15 "14h"
       initial_world
    = (Return (Some input_df), initial_world) /\
    input_df
    = [("timestamp",
        DatetimeSeries
          (map (fun i => days_from_civil 2025 9 16 * ns_per_day
                         + (2 * ns_per_hour + 35 * ns_per_minute)
                         + Z.of_nat i * (14 * ns_per_hour))
               (seq 0 15)))] /\
    @convert_to_datetime (reference []) input_df = Return transformed_df /\
    extract_parts transformed_df = Return result_df /\
    shape result_df = (15%nat, 8%nat) /\
    columns result_df = derived_columns /\
    str_at result_df "weekday_name" 0 = Some "Tue" /\
    int_at result_df "weekday" 0 = Some 1 /\
    stdout (snd (@example_main_synthetic (reference []) initial_world))
    = [Table result_df].
Proof.
  eexists. eexists. eexists.
  split; [vm_compute; reflexivity |].
  split; [vm_compute; reflexivity |].
  split; [vm_compute; reflexivity |].
  split; [vm_compute; reflexivity |].
  repeat split; vm_compute; reflexivity.
Qed.

(** ** The reference CSV reader and the header line *)

Lemma split_on_nonempty (p : ascii -> bool) (s : string) : split_on p s <> [].
Proof.
  destruct s as [| c rest]; cbn; [discriminate |].
  destruct (p c); [discriminate |].
  destruct (split_on p rest); discriminate.
Qed.

(** Text without a cut character is one piece. *)
Lemma split_on_free (p : ascii -> bool) (s : string) :
  free_of p s = true -> split_on p s = [s].
Proof.
  induction s as [| c rest IH]; cbn; [reflexivity |].
  intros H. apply andb_true_iff in H. destruct H as [Hc Hrest].
  apply negb_true_iff in Hc. rewrite Hc, (IH Hrest). reflexivity.
Qed.

Lemma split_on_cut (p : ascii -> bool) (s : string) (c : ascii) (rest : string) :
  free_of p s = true -> p c = true ->
  split_on p (s ++ String c rest) = s :: split_on p rest.
Proof.
  intros Hs Hc. induction s as [| a s' IH]; cbn.
  - now rewrite Hc.
  - cbn in Hs. apply andb_true_iff in Hs. destruct Hs as [Ha Hs'].
    apply negb_true_iff in Ha. rewrite Ha, (IH Hs'). reflexivity.
Qed.

Lemma plain_text_free_of_newline (s : string) :
  plain_text s = true -> free_of is_newline s = true.
Proof.
  induction s as [| c rest IH]; cbn; [reflexivity |].
  unfold plain_char. intros H. apply andb_true_iff in H. destruct H as [Hc Hrest].
  rewrite (IH Hrest), andb_true_r.
  destruct (is_newline c); [discriminate | reflexivity].
Qed.

Lemma plain_text_free_of_comma (s : string) :
  plain_text s = true -> free_of is_comma s = true.
Proof.
  induction s as [| c rest IH]; cbn; [reflexivity |].
  unfold plain_char. intros H. apply andb_true_iff in H. destruct H as [Hc Hrest].
  rewrite (IH Hrest), andb_true_r.
  destruct (is_comma c); [now rewrite orb_true_r in Hc | reflexivity].
Qed.

(** Joining plain lines and cutting at the line ends gives the lines back. *)
Lemma split_join_lines (lines : list string) :
  lines <> [] ->
  Forall (fun l => plain_text l = true) lines ->
  split_on is_newline (join_lines lines) = lines.
Proof.
  intros Hne Hall. unfold join_lines.
  induction Hall as [| l rest Hl Hrest IH]; [congruence |].
  destruct rest as [| l' rest'].
  - cbn. now apply split_on_free, plain_text_free_of_newline.
  - change (String.concat (String "010" EmptyString) (l :: l' :: rest'))
      with (l ++ String "010" (String.concat (String "010" EmptyString) (l' :: rest'))).
    rewrite split_on_cut;
      [| now apply plain_text_free_of_newline | reflexivity].
    f_equal. apply IH. discriminate.
Qed.

Lemma object_column_len (cells : list (option string)) :
  series_len (object_column cells) = List.length cells.
Proof.
  unfold object_column. destruct (all_present cells) as [v |] eqn:E; [| reflexivity].
  cbn. now apply all_present_length.
Qed.

Lemma number_column_len (cells : list (option Z)) :
  series_len (number_column cells) = List.length cells.
Proof.
  unfold number_column. destruct (all_present cells) as [v |] eqn:E.
  - cbn. now apply all_present_length.
  - cbn. now rewrite length_map.
Qed.

Lemma infer_series_len (texts : list string) :
  series_len (infer_series texts) = List.length texts.
Proof.
  unfold infer_series. destruct texts as [| t rest]; [reflexivity |].
  cbv zeta. destruct (forallb _ _).
  - now rewrite number_column_len, !length_map.
  - now rewrite object_column_len, length_map.
Qed.

(** The reader never produces a datetime column: cells stay text, or become
    numbers when every cell of the column is an integer literal or
    missing. *)
Lemma infer_series_not_datetime (texts : list string) :
  is_datetime64_any_dtype (infer_series texts) = false.
Proof.
  unfold infer_series. destruct texts as [| t rest]; [reflexivity |].
  cbv zeta. unfold number_column, object_column.
  destruct (forallb _ _); now destruct (all_present _).
Qed.

(** No marker of a missing value is an integer literal. *)
Lemma int64_literal_not_na (t : string) (z : Z) :
  int64_literal t = Some z -> str_in t na_values = false.
Proof.
  intros H. destruct (str_in t na_values) eqn:E; [| reflexivity].
  unfold str_in in E. apply existsb_exists in E.
  destruct E as (m & Hin & Heq). apply String.eqb_eq in Heq. subst m.
  unfold na_values in Hin. cbn [In] in Hin.
  repeat (destruct Hin as [<- | Hin]; [discriminate H |]).
  destruct Hin.
Qed.

(** A column in which every cell is an integer literal is a column of
    integers. *)
Lemma infer_series_integers (texts : list string) (ns : list Z) :
  texts <> [] ->
  map int64_literal texts = map Some ns ->
  infer_series texts = Int64Series ns.
Proof.
  intros Hne Hall. unfold infer_series.
  destruct texts as [| t rest] eqn:Et; [congruence |]. rewrite <- Et in *. clear Et Hne.
  cbv zeta.
  assert (Hcells : map number_of_cell (map read_cell texts) = map Some ns
                   /\ forallb is_number_cell (map read_cell texts) = true).
  { revert ns Hall. induction texts as [| x xs IH]; intros ns Hall.
    - destruct ns; [split; reflexivity | discriminate].
    - destruct ns as [| n ns']; [discriminate |].
      cbn [map] in Hall. injection Hall as Hx Hxs.
      destruct (IH ns' Hxs) as [IH1 IH2].
      cbn [map forallb]. unfold read_cell at 1 3.
      rewrite (int64_literal_not_na x n Hx). cbn [number_of_cell is_number_cell].
      rewrite Hx, IH1, IH2. split; reflexivity. }
  destruct Hcells as [Hnum Hforall]. rewrite Hforall, Hnum.
  unfold number_column. now rewrite all_present_map_Some.
Qed.

(** A date is not an integer literal. *)
Lemma digits_value_digits (s : string) (acc v : Z) (i : nat) (c : ascii) :
  digits_value acc s = Some v -> get i s = Some c -> digit_of c <> None.
Proof.
  revert acc i. induction s as [| c0 rest IH]; intros acc i; cbn.
  - intros _ H. destruct i; discriminate.
  - destruct (digit_of c0) as [d |] eqn:Ed; [| discriminate].
    intros Hv. destruct i as [| i]; cbn.
    + intros [= <-]. congruence.
    + intros Hg. exact (IH _ _ Hv Hg).
Qed.

Lemma dash_not_integer (s : string) :
  char_at s 4 "-" = true -> parse_int s = None.
Proof.
  unfold char_at. destruct (get 4 s) as [c |] eqn:Eg; [| discriminate].
  intros Hc. apply Ascii.eqb_eq in Hc. subst c.
  assert (Hno : forall t i, get i t = Some "-"%char -> parse_digits t = None).
  { intros t i Hg. unfold parse_digits.
    destruct t as [| c0 rest]; [reflexivity |].
    destruct (digits_value 0 (String c0 rest)) as [v |] eqn:Ev; [| reflexivity].
    exfalso. exact (digits_value_digits _ _ _ _ _ Ev Hg eq_refl). }
  destruct s as [| c0 rest]; [discriminate |].
  assert (Hrest : parse_digits rest = None) by (apply (Hno rest 3%nat); exact Eg).
  assert (Hall : parse_digits (String c0 rest) = None) by (apply (Hno _ 4%nat); exact Eg).
  unfold parse_int.
  destruct c0 as [[] [] [] [] [] [] [] []]; try exact Hall; now rewrite Hrest.
Qed.

Lemma iso_date_dash (s : string) (t : Z) :
  iso_date s = Some t -> char_at s 4 "-" = true.
Proof.
  unfold iso_date. destruct (char_at s 4 "-"); [reflexivity | discriminate].
Qed.

Lemma iso_datetime_not_integer (s : string) (t : Timestamp) :
  iso_datetime s = Return t -> int64_literal s = None.
Proof.
  intros H.
  assert (Hdash : char_at s 4 "-" = true).
  { unfold iso_datetime in H.
    destruct (Nat.eqb (String.length s) 10).
    - destruct (iso_date s) as [d |] eqn:Ed; [| discriminate].
      exact (iso_date_dash _ _ Ed).
    - destruct (Nat.eqb (String.length s) 19 && _); [| discriminate].
      destruct (iso_date (substring 0 10 s)) as [d |] eqn:Ed; [| discriminate].
      apply iso_date_dash in Ed. unfold char_at in *.
      rewrite (substring_correct1 s 0 10 4) in Ed by lia. exact Ed. }
  unfold int64_literal. now rewrite (dash_not_integer s Hdash).
Qed.

(** A column with a date among its cells, none of them a marker of a
    missing value, is left as the text it was. *)
Lemma infer_series_text (texts : list string) :
  Forall (fun c => str_in c na_values = false) texts ->
  (exists c, In c texts /\ int64_literal c = None) ->
  infer_series texts = ObjectSeries texts.
Proof.
  intros Hna (c & Hin & Hc). unfold infer_series.
  destruct texts as [| t rest] eqn:Et; [destruct Hin |]. rewrite <- Et in *. clear Et.
  cbv zeta.
  assert (Hcells : map read_cell texts = map Some texts).
  { apply map_ext_in. intros x Hx. rewrite Forall_forall in Hna.
    unfold read_cell. now rewrite (Hna x Hx). }
  rewrite Hcells.
  assert (Hf : forallb is_number_cell (map Some texts) = false).
  { apply not_true_is_false. intros Hf.
    rewrite forallb_forall in Hf.
    specialize (Hf (Some c) (in_map Some _ _ Hin)). cbn in Hf.
    now rewrite Hc in Hf. }
  rewrite Hf. unfold object_column. now rewrite all_present_map_Some.
Qed.

Lemma cells_int_column (cs : list (option Z)) :
  cells (int_column cs) = map (cell_of SInt) cs.
Proof.
  unfold int_column. destruct (all_present cs) as [v |] eqn:E; [| reflexivity].
  rewrite (all_present_cells _ _ E). cbn. now rewrite map_map.
Qed.

Lemma cells_datetime_column (cs : list (option Timestamp)) :
  cells (datetime_column cs) = map (cell_of STime) cs.
Proof.
  unfold datetime_column. destruct (all_present cs) as [v |] eqn:E; [| reflexivity].
  rewrite (all_present_cells _ _ E). cbn. now rewrite map_map.
Qed.

Lemma cells_object_column (cs : list (option string)) :
  cells (object_column cs) = map (cell_of SStr) cs.
Proof.
  unfold object_column. destruct (all_present cs) as [v |] eqn:E; [| reflexivity].
  rewrite (all_present_cells _ _ E). cbn. now rewrite map_map.
Qed.

(** A marker of a missing value is read as a missing cell. *)
Lemma infer_series_missing (texts : list string) (i : nat) (c : string) :
  nth_error texts i = Some c ->
  str_in c na_values = true ->
  nth_error (cells (infer_series texts)) i = Some SNaN.
Proof.
  intros Hi Hna. unfold infer_series.
  destruct texts as [| t rest] eqn:Et; [destruct i; discriminate |].
  rewrite <- Et in *. clear Et. cbv zeta.
  destruct (forallb _ _).
  - unfold number_column.
    destruct (all_present _) as [v |] eqn:E.
    + apply all_present_cells in E.
      apply (f_equal (fun l => nth_error l i)) in E.
      rewrite !nth_error_map, Hi in E. cbn in E.
      unfold read_cell in E. rewrite Hna in E. cbn in E.
      destruct (nth_error v i); discriminate.
    + cbn [cells]. rewrite !nth_error_map, Hi. cbn.
      unfold read_cell. now rewrite Hna.
  - rewrite cells_object_column, !nth_error_map, Hi. cbn.
    unfold read_cell. now rewrite Hna.
Qed.

(** A file of plain lines: the first non-blank line becomes the label of
    the only column and the other non-blank lines are its rows. *)
Lemma read_csv_text_single_column (lines : list string) (header : string)
    (rows : list string) :
  Forall (fun l => plain_text l = true) lines ->
  filter (fun l => negb (is_blank l)) lines = header :: rows ->
  read_csv_text (join_lines lines) = Return [(header, infer_series rows)].
Proof.
  intros Hall Hfilter.
  assert (Hne : lines <> []) by (intros ->; discriminate).
  unfold read_csv_text. rewrite (split_join_lines lines Hne Hall), Hfilter.
  assert (Hplain : Forall (fun l => plain_text l = true) (header :: rows)).
  { rewrite <- Hfilter. apply Forall_forall. intros l Hin.
    apply filter_In in Hin. rewrite Forall_forall in Hall. now apply Hall. }
  inversion Hplain as [| ? ? Hh Hr]; subst.
  cbn [map]. rewrite (split_on_free is_comma header)
    by now apply plain_text_free_of_comma.
  assert (Hrows : map (split_on is_comma) rows = map (fun r => [r]) rows).
  { apply map_ext_in. intros r Hin. rewrite Forall_forall in Hr.
    apply split_on_free, plain_text_free_of_comma. now apply Hr. }
  rewrite Hrows. cbv zeta.
  assert (Hwidth : match map (fun r : string => [r]) rows with
                   | [] => List.length [header]
                   | first :: _ => Nat.max (List.length [header]) (List.length first)
                   end = 1%nat)
    by (destruct rows; reflexivity).
  rewrite Hwidth.
  assert (Hlen : forallb (fun r : list string => Nat.leb (List.length r) 1)
                   (map (fun r => [r]) rows) = true).
  { apply forallb_forall. intros r Hin. apply in_map_iff in Hin.
    destruct Hin as (x & <- & _). reflexivity. }
  rewrite Hlen. cbn [List.length seq map nth Nat.sub Nat.add].
  rewrite map_map. cbn [nth]. now rewrite map_id.
Qed.

(** C10.  With the reference reader, a file of plain one-field lines is read
    with its first non-blank line as the header: that line becomes the
    column label, which the loader then replaces by "timestamp", and only
    the lines after it are rows.  A headerless file of n timestamps thus
    loads as n - 1 rows, the first timestamp being lost. *)
Theorem load_consumes_first_line
    (files : list (string * string)) (path : string) (lines : list string)
    (first : string) (others : list string) :
  file_lookup files path = Some (join_lines lines) ->
  Forall (fun l => plain_text l = true) lines ->
  filter (fun l => negb (is_blank l)) lines = first :: others ->
  @read_csv (reference files) path = Return [(first, infer_series others)] /\
  @load_dataframe_from_file (reference files) path
  = Return [("timestamp", infer_series others)] /\
  nrows [("timestamp", infer_series others)]
  = (List.length (filter (fun l => negb (is_blank l)) lines) - 1)%nat.
Proof.
  intros Hfile Hplain Hfilter.
  assert (Hread : @read_csv (reference files) path
                  = Return [(first, infer_series others)]).
  { cbn. rewrite Hfile. now apply read_csv_text_single_column. }
  split; [exact Hread |]. split.
  - apply (@load_single_column (reference files) path first); [| exact Hread].
    cbn. now rewrite Hfile.
  - rewrite Hfilter. cbn [nrows List.length].
    rewrite infer_series_len. lia.
Qed.

Lemma load_consumes_first_line_witness :
  @load_dataframe_from_file (reference sample_files) "stamps.csv"
  = Return [("timestamp",
             ObjectSeries ["2025-09-16 16:35:00"; "2025-09-17 06:35:00"])] /\
  List.length three_timestamps = 3%nat.
Proof.
  split; [| reflexivity].
  exact (proj1 (proj2 (load_consumes_first_line sample_files "stamps.csv"
                         three_timestamps "2025-09-16 02:35:00"
                         ["2025-09-16 16:35:00"; "2025-09-17 06:35:00"]
                         eq_refl
                         ltac:(repeat constructor)
                         eq_refl))).
Defined.

(** C6, as the code has it.  The four outcomes of
    [load_dataframe_from_file]: a path that does not exist raises
    FileNotFoundError; an existing file that [read_csv] rejects, or that
    yields a number of columns other than one (none, or several), raises
    ValueError; a single column comes back relabelled "timestamp" with the
    values as [read_csv] typed them.  For a file of plain one-field lines
    these are never datetimes: they are the raw text when no cell is a
    marker of a missing value and some cell is a date, but integers when
    every cell is an integer literal, and a marker of a missing value is
    read as a missing cell. *)
Theorem load_dataframe_from_file_outcomes :
  (forall (RT : Runtime) (path : string),
     (path_exists path = false ->
      load_dataframe_from_file path = raise FileNotFoundError (FileMissing path)) /\
     (path_exists path = true ->
      forall e, read_csv path = Raised e ->
      load_dataframe_from_file path = raise ValueError (CsvReadFailed e)) /\
     (path_exists path = true ->
      forall df, read_csv path = Return df -> ncols df <> 1%nat ->
      load_dataframe_from_file path = raise ValueError OneColumnExpected) /\
     (path_exists path = true ->
      forall label values, read_csv path = Return [(label, values)] ->
      load_dataframe_from_file path = Return [("timestamp", values)])) /\
  (forall (files : list (string * string)) (path : string)
          (lines : list string) (header : string) (rows : list string),
     file_lookup files path = Some (join_lines lines) ->
     Forall (fun l => plain_text l = true) lines ->
     filter (fun l => negb (is_blank l)) lines = header :: rows ->
     exists values,
       @load_dataframe_from_file (reference files) path
       = Return [("timestamp", values)] /\
       series_len values = List.length rows /\
       is_datetime64_any_dtype values = false /\
       (Forall (fun c => str_in c na_values = false) rows ->
        (exists c t, In c rows /\ iso_datetime c = Return t) ->
        values = ObjectSeries rows) /\
       (rows <> [] ->
        forall ns, map int64_literal rows = map Some ns ->
                   values = Int64Series ns) /\
       (forall i c, nth_error rows i = Some c -> str_in c na_values = true ->
                    nth_error (cells values) i = Some SNaN)).
Proof.
  split.
  - intros RT path. apply load_outcomes.
  - intros files path lines header rows Hfile Hplain Hfilter.
    exists (infer_series rows).
    split; [| split; [| split; [| split; [| split]]]].
    + apply (@load_single_column (reference files) path header).
      * cbn. now rewrite Hfile.
      * cbn. rewrite Hfile. now apply read_csv_text_single_column.
    + apply infer_series_len.
    + apply infer_series_not_datetime.
    + intros Hna (c & t & Hin & Ht). apply infer_series_text; [exact Hna |].
      exists c. split; [exact Hin | exact (iso_datetime_not_integer c t Ht)].
    + intros Hne ns Hns. now apply infer_series_integers.
    + intros i c Hi Hna. now apply (infer_series_missing rows i c).
Qed.

Lemma load_dataframe_from_file_outcomes_witness :
  @load_dataframe_from_file (reference sample_files) "absent.csv"
  = raise FileNotFoundError (FileMissing "absent.csv") /\
  @load_dataframe_from_file (reference sample_files) "empty.csv"
  = raise ValueError
      (CsvReadFailed (Raise EmptyDataError (Text "No columns to parse from file"))) /\
  @load_dataframe_from_file (reference sample_files) "pairs.csv"
  = raise ValueError OneColumnExpected /\
  @load_dataframe_from_file (reference sample_files) "digits.csv"
  = Return [("timestamp", Int64Series [20250916; 20250917])] /\
  exists values,
    @load_dataframe_from_file (reference sample_files) "stamps.csv"
    = Return [("timestamp", values)] /\
    values = ObjectSeries ["2025-09-16 16:35:00"; "2025-09-17 06:35:00"].
Proof.
  destruct load_dataframe_from_file_outcomes as [Hgen Href].
  destruct (Hgen (reference sample_files) "absent.csv") as (Habsent & _).
  destruct (Hgen (reference sample_files) "empty.csv") as (_ & Hempty & _).
  destruct (Hgen (reference sample_files) "pairs.csv") as (_ & _ & Hpairs & _).
  destruct (Hgen (reference sample_files) "digits.csv") as (_ & _ & _ & Hdigits).
  split; [exact (Habsent eq_refl) |].
  split; [exact (Hempty eq_refl _ eq_refl) |].
  split.
  { refine (Hpairs eq_refl
              [("day", Int64Series [16; 17]); ("hour", Int64Series [2; 6])]
              eq_refl _).
    cbn. lia. }
  split; [exact (Hdigits eq_refl "stamp" _ eq_refl) |].
  destruct (Href sample_files "stamps.csv" three_timestamps
              "2025-09-16 02:35:00"
              ["2025-09-16 16:35:00"; "2025-09-17 06:35:00"]
              eq_refl ltac:(repeat constructor) eq_refl)
    as (values & Hload & _ & _ & Htext & _).
  exists values. split; [exact Hload |].
  apply Htext; [repeat constructor |].
  exists "2025-09-16 16:35:00". eexists.
  split; [left; reflexivity | reflexivity].
Defined.

(** Against C6 as the specification has it: the values do not always stay
    raw text.  A file whose cells are digits only loads as a column of
    integers, and the marker NA loads as a missing cell. *)
Lemma load_dataframe_from_file_typed_counterexample :
  @load_dataframe_from_file (reference sample_files) "digits.csv"
  = Return [("timestamp", Int64Series [20250916; 20250917])] /\
  Int64Series [20250916; 20250917] <> ObjectSeries ["20250916"; "20250917"] /\
  @load_dataframe_from_file (reference sample_files) "gaps.csv"
  = Return [("timestamp", ObjectNaSeries [Some "2025-09-16 02:35:00"; None])].
Proof.
  split; [reflexivity |]. split; [discriminate | reflexivity].
Qed.

(* ===================================================================== *)
(** * Further facts *)

(** ** What the stages return and raise *)

Lemma setitem_same (df : DataFrame) (name : string) (s : Series) :
  lookup_column df name = Some s -> setitem df name s = df.
Proof.
  induction df as [| [n s0] rest IH]; cbn; [discriminate |].
  destruct (String.eqb n name) eqn:E.
  - intros [= <-]. reflexivity.
  - intros H. now rewrite (IH H).
Qed.

Lemma lookup_setitem_other (df : DataFrame) (name other : string) (s : Series) :
  other <> name ->
  lookup_column (setitem df name s) other = lookup_column df other.
Proof.
  intros Hne. induction df as [| [n s0] rest IH]; cbn.
  - destruct (String.eqb name other) eqn:E; [| reflexivity].
    apply String.eqb_eq in E. congruence.
  - destruct (String.eqb n name) eqn:E; cbn.
    + apply String.eqb_eq in E. subst n.
      destruct (String.eqb name other) eqn:E'; [| reflexivity].
      apply String.eqb_eq in E'. congruence.
    + now rewrite IH.
Qed.

Lemma str_in_false_of_lookup_none (df : DataFrame) (name : string) :
  lookup_column df name = None -> str_in name (columns df) = false.
Proof.
  intros H. destruct (str_in name (columns df)) eqn:E; [| reflexivity].
  destruct (lookup_of_str_in_columns _ _ E) as [s Hs]. congruence.
Qed.

Section StageResults.
Context `{RT : Runtime}.

(** Whatever [load_dataframe_from_file] returns is the single column that
    [read_csv] produced, relabelled. *)
Lemma load_returns_inversion (path : string) (df : DataFrame) :
  load_dataframe_from_file path = Return df ->
  path_exists path = true /\
  exists label values,
    read_csv path = Return [(label, values)] /\ df = [("timestamp", values)].
Proof.
  unfold load_dataframe_from_file.
  destruct (path_exists path); cbn [negb]; [| discriminate].
  destruct (read_csv path) as [df0 | e]; cbn [try_except exc_bind]; [| discriminate].
  unfold shape. cbn [snd].
  destruct df0 as [| [label values] [| c rest]]; cbn; try discriminate.
  intros [= <-]. split; [reflexivity |]. exists label, values. split; reflexivity.
Qed.

(** X1.  Each stage raises only the exceptions its docstring lists: the loader
    FileNotFoundError for a path that does not exist and ValueError for a
    file it cannot use; the normalizer KeyError for a missing "timestamp"
    column and ValueError for a failed conversion; the extractor KeyError
    for a missing column and TypeError for a column that is not datetime.
    No exception of pandas itself escapes them. *)
Theorem stages_raise_only_documented :
  (forall path e,
     load_dataframe_from_file path = Raised e ->
     (path_exists path = false /\ e = Raise FileNotFoundError (FileMissing path))
     \/ (path_exists path = true /\
         ((exists cause, read_csv path = Raised cause /\
                         e = Raise ValueError (CsvReadFailed cause))
          \/ (exists df, read_csv path = Return df /\ ncols df <> 1%nat /\
                         e = Raise ValueError OneColumnExpected)))) /\
  (forall df e,
     convert_to_datetime df = Raised e ->
     (str_in "timestamp" (columns df) = false /\
      e = Raise KeyError TimestampColumnAbsent)
     \/ (str_in "timestamp" (columns df) = true /\
         exists cause, e = Raise ValueError (DatetimeConversionFailed cause))) /\
  (forall df e,
     extract_parts df = Raised e ->
     (str_in "timestamp" (columns df) = false /\
      e = Raise KeyError TimestampColumnAbsent)
     \/ (exists s, lookup_column df "timestamp" = Some s /\
                   is_datetime64_any_dtype s = false /\
                   e = Raise TypeError TimestampNotDatetime)).
Proof.
  repeat split.
  - intros path e. unfold load_dataframe_from_file.
    destruct (path_exists path); cbn [negb].
    + destruct (read_csv path) as [df0 | cause]; cbn [try_except exc_bind];
        intros H; right; (split; [reflexivity |]).
      * right. exists df0. split; [reflexivity |].
        unfold shape in H. cbn [snd] in H.
        destruct df0 as [| [label values] [| c rest]]; cbn in H; try discriminate;
          injection H as <-; (split; [cbn; lia | reflexivity]).
      * left. exists cause. injection H as <-. split; reflexivity.
    + intros [= <-]. left. split; reflexivity.
  - intros df e. unfold convert_to_datetime.
    destruct (str_in "timestamp" (columns df)); cbn [negb].
    + intros H. right. split; [reflexivity |].
      unfold try_except in H.
      match type of H with
      | match ?body with _ => _ end = _ => destruct body as [r | cause]
      end; [discriminate |].
      injection H as <-. eauto.
    + intros [= <-]. left. split; reflexivity.
  - intros df e.
    destruct (str_in "timestamp" (columns df)) eqn:Hin.
    + destruct (lookup_of_str_in_columns _ _ Hin) as [s Hlk].
      destruct (is_datetime64_any_dtype s) eqn:Hdt.
      * destruct (dt_of_datetime s Hdt) as (cells & Hcells & _).
        rewrite (extract_parts_datetime df s cells Hlk Hdt Hcells). discriminate.
      * unfold extract_parts. rewrite Hin. cbn [negb].
        unfold getitem. rewrite Hlk. cbn [exc_bind]. rewrite Hdt. cbn [negb].
        intros [= <-]. right. exists s. repeat split; assumption.
    + unfold extract_parts. rewrite Hin. cbn [negb].
      intros [= <-]. left. split; reflexivity.
Qed.

(** X2.  A table the loader returned has the one column "timestamp", so the
    normalizer can only fail on it with the ValueError of a failed
    conversion, never with the KeyError of a missing column. *)
Theorem loaded_table_has_timestamp_column (path : string) (df : DataFrame) :
  load_dataframe_from_file path = Return df ->
  columns df = ["timestamp"] /\
  (exists label values,
     read_csv path = Return [(label, values)] /\ df = [("timestamp", values)]) /\
  forall e, convert_to_datetime df = Raised e ->
            exists cause, e = Raise ValueError (DatetimeConversionFailed cause).
Proof.
  intros H. destruct (load_returns_inversion path df H) as (_ & label & values & Hr & ->).
  split; [reflexivity |]. split; [exists label, values; split; [exact Hr | reflexivity] |].
  intros e. unfold convert_to_datetime. cbn [columns map fst str_in existsb String.eqb Ascii.eqb Bool.eqb orb negb].
  unfold try_except.
  match goal with
  | |- match ?body with _ => _ end = _ -> _ => destruct body as [r | cause]
  end; [discriminate |].
  intros [= <-]. eauto.
Qed.

Lemma convert_returns_datetime (df out : DataFrame) :
  convert_to_datetime df = Return out ->
  exists cells,
    lookup_column out "timestamp" = Some (datetime_column cells).
Proof.
  intros H.
  destruct (convert_returns_inversion df out H) as (s & s' & Hlk & Ht & ->).
  destruct (to_datetime_returns s s' Ht) as (cells & -> & _).
  exists cells. apply lookup_setitem_same.
Qed.




End StageResults.

(** X6.  The extractor reads nothing but the "timestamp" column: two tables that
    agree on it get the same result, error or table, whatever their other
    columns are. *)
Theorem extract_parts_reads_only_timestamp (df df' : DataFrame) :
  lookup_column df "timestamp" = lookup_column df' "timestamp" ->
  extract_parts df = extract_parts df'.
Proof.
  intros H. unfold extract_parts.
  destruct (lookup_column df "timestamp") as [s |] eqn:Hlk.
  - symmetry in H.
    rewrite (str_in_columns_of_lookup _ _ _ Hlk), (str_in_columns_of_lookup _ _ _ H).
    unfold timestamp_field, getitem. now rewrite Hlk, H.
  - symmetry in H.
    now rewrite (str_in_false_of_lookup_none _ _ Hlk), (str_in_false_of_lookup_none _ _ H).
Qed.

(** ** More on the derived columns *)

(** X7.  On every row of a normalized table the year, month and day columns
    form a valid calendar date, the hour is one of 0..23, date and hour
    locate the row's timestamp to the hour, and the weekday column is the
    weekday of that date. *)
Theorem extract_dates_are_valid (df : DataFrame) :
  normalized df ->
  exists new_df,
    extract_parts df = Return new_df /\
    forall i, (i < nrows df)%nat ->
      exists t y m d h wd,
        time_at df "timestamp" i = Some t /\
        int_at new_df "year" i = Some y /\
        int_at new_df "month" i = Some m /\
        int_at new_df "day" i = Some d /\
        int_at new_df "hour" i = Some h /\
        int_at new_df "weekday" i = Some wd /\
        valid_date y m d = true /\
        0 <= h <= 23 /\
        days_from_civil y m d * ns_per_day + h * ns_per_hour <= t
          < days_from_civil y m d * ns_per_day + (h + 1) * ns_per_hour /\
        wd = (days_from_civil y m d + 3) mod 7.
Proof.
  intros Hn. destruct (normalized_rows df Hn) as (ts & Hlk & Hlen).
  exists (derived_frame ts). split; [now apply extract_parts_normalized |].
  intros i Hi. rewrite <- Hlen in Hi.
  destruct (nth_error ts i) as [t |] eqn:Et;
    [| apply nth_error_None in Et; lia].
  exists t, (ts_year t), (ts_month t), (ts_day t), (ts_hour t), (ts_dayofweek t).
  unfold time_at, int_at. rewrite Hlk.
  unfold derived_frame.
  cbn [lookup_column String.eqb Ascii.eqb Bool.eqb].
  rewrite !nth_error_map, Et. cbn [option_map].
  destruct (civil_from_days_inverse (day_number t)) as [Hv Hd].
  cbv zeta in Hv, Hd.
  fold (ts_year t) (ts_month t) (ts_day t) in Hv, Hd.
  repeat split; try reflexivity; try exact Hv; try apply ts_hour_range.
  - rewrite Hd. unfold day_number, ts_hour, ns_per_day, ns_per_hour,
      ns_per_minute, ns_per_second. Z.div_mod_to_equations. lia.
  - rewrite Hd. unfold day_number, ts_hour, ns_per_day, ns_per_hour,
      ns_per_minute, ns_per_second. Z.div_mod_to_equations. lia.
  - now rewrite Hd.
Qed.

Lemma extract_dates_are_valid_witness :
  normalized sample_normalized /\
  exists new_df,
    extract_parts sample_normalized = Return new_df /\
    forall i, (i < nrows sample_normalized)%nat ->
      exists t y m d h wd,
        time_at sample_normalized "timestamp" i = Some t /\
        int_at new_df "year" i = Some y /\
        int_at new_df "month" i = Some m /\
        int_at new_df "day" i = Some d /\
        int_at new_df "hour" i = Some h /\
        int_at new_df "weekday" i = Some wd /\
        valid_date y m d = true /\
        0 <= h <= 23 /\
        days_from_civil y m d * ns_per_day + h * ns_per_hour <= t
          < days_from_civil y m d * ns_per_day + (h + 1) * ns_per_hour /\
        wd = (days_from_civil y m d + 3) mod 7.
Proof.
  split; [exact sample_is_normalized |].
  apply (extract_dates_are_valid sample_normalized).
  exact sample_is_normalized.
Defined.

(** X8.  The two weekend markers agree: on every row is_weekend is 1 exactly
    when weekday_name is "Sat" or "Sun", and 0 on the five other names. *)
Theorem extract_weekend_matches_name (df : DataFrame) :
  normalized df ->
  exists new_df,
    extract_parts df = Return new_df /\
    forall i, (i < nrows df)%nat ->
      exists name we,
        str_at new_df "weekday_name" i = Some name /\
        int_at new_df "is_weekend" i = Some we /\
        In name day_abbreviations /\
        (we = 1 <-> name = "Sat" \/ name = "Sun") /\
        (we = 0 <-> name <> "Sat" /\ name <> "Sun").
Proof.
  intros Hn. destruct (normalized_rows df Hn) as (ts & Hlk & Hlen).
  exists (derived_frame ts). split; [now apply extract_parts_normalized |].
  intros i Hi. rewrite <- Hlen in Hi.
  destruct (nth_error ts i) as [t |] eqn:Et;
    [| apply nth_error_None in Et; lia].
  unfold int_at, str_at.
  unfold derived_frame, astype_int, isin, cells, str_slice_to.
  cbn [lookup_column String.eqb Ascii.eqb Bool.eqb].
  rewrite !nth_error_map, Et. cbn [option_map existsb scalar_eqb].
  unfold ts_day_name.
  pose proof (ts_dayofweek_range t) as Hr.
  assert (Hc : ts_dayofweek t = 0 \/ ts_dayofweek t = 1 \/ ts_dayofweek t = 2 \/
               ts_dayofweek t = 3 \/ ts_dayofweek t = 4 \/ ts_dayofweek t = 5 \/
               ts_dayofweek t = 6) by lia.
  eexists. eexists. split; [reflexivity |]. split; [reflexivity |].
  repeat (destruct Hc as [Hc | Hc]); rewrite Hc; cbn;
    (split; [tauto |]);
    (split; split; try discriminate; try tauto; try lia;
     try (intros [H | H]; discriminate H);
     try (intros _; split; discriminate);
     try (intros [H1 H2]; congruence)).
Qed.

Lemma extract_weekend_matches_name_witness :
  normalized sample_normalized /\
  exists new_df,
    extract_parts sample_normalized = Return new_df /\
    forall i, (i < nrows sample_normalized)%nat ->
      exists name we,
        str_at new_df "weekday_name" i = Some name /\
        int_at new_df "is_weekend" i = Some we /\
        In name day_abbreviations /\
        (we = 1 <-> name = "Sat" \/ name = "Sun") /\
        (we = 0 <-> name <> "Sat" /\ name <> "Sun").
Proof.
  split; [exact sample_is_normalized |].
  apply (extract_weekend_matches_name sample_normalized).
  exact sample_is_normalized.
Defined.

Lemma stages_raise_only_documented_witness :
  (@load_dataframe_from_file (reference sample_files) "pairs.csv"
   = Raised (Raise ValueError OneColumnExpected) /\
   @path_exists (reference sample_files) "pairs.csv" = true) /\
  (@convert_to_datetime (reference []) sample_unparseable
   = Raised (Raise ValueError
               (DatetimeConversionFailed
                  (Raise ValueError
                     (About "time data doesn't match format" "yesterday")))) /\
   str_in "timestamp" (columns sample_unparseable) = true) /\
  extract_parts sample_unlabelled = Raised (Raise KeyError TimestampColumnAbsent).
Proof.
  destruct (@stages_raise_only_documented (reference sample_files)) as (Hl & _ & He).
  destruct (@stages_raise_only_documented (reference [])) as (_ & Hc & _).
  split; [| split].
  - destruct (Hl "pairs.csv" (Raise ValueError OneColumnExpected) eq_refl)
      as [[Hx _] | [Hx _]]; [discriminate Hx |].
    split; [reflexivity | exact Hx].
  - destruct (Hc sample_unparseable _ eq_refl) as [[Hx _] | [Hx _]];
      [discriminate Hx |].
    split; [reflexivity | exact Hx].
  - destruct (He sample_unlabelled (Raise KeyError TimestampColumnAbsent) eq_refl)
      as [[_ Hx] | (s & Hx & _)]; [reflexivity | discriminate Hx].
Defined.

Lemma loaded_table_has_timestamp_column_witness :
  @load_dataframe_from_file (reference sample_files) "stamps.csv"
  = Return [("timestamp",
             ObjectSeries ["2025-09-16 16:35:00"; "2025-09-17 06:35:00"])] /\
  columns [("timestamp",
            ObjectSeries ["2025-09-16 16:35:00"; "2025-09-17 06:35:00"])]
  = ["timestamp"].
Proof.
  split; [reflexivity |].
  exact (proj1 (@loaded_table_has_timestamp_column (reference sample_files)
                  "stamps.csv" _ eq_refl)).
Defined.




Lemma extract_parts_reads_only_timestamp_witness :
  lookup_column sample_normalized "timestamp"
  = lookup_column sample_with_extra "timestamp" /\
  extract_parts sample_normalized = extract_parts sample_with_extra.
Proof.
  split; [reflexivity |].
  apply extract_parts_reads_only_timestamp. reflexivity.
Defined.

(** ** The visualizer: what is drawn *)

Section Drawing.
Context `{RT : Runtime}.

Lemma add_panels_current (fig : Figure) (rest : list Figure) (out : list Output)
    (ps : list Panel) :
  fold_left (fun w p => update_current (add_panel p) w) ps
    {| stdout := out; canvas := fig :: rest |}
  = {| stdout := out;
       canvas := {| fig_axes := fig_axes fig; fig_size := fig_size fig;
                    fig_panels := fig_panels fig ++ ps;
                    fig_tight := fig_tight fig; fig_shown := fig_shown fig |}
                 :: rest |}.
Proof.
  revert fig. induction ps as [| p ps IH]; intros fig; cbn [fold_left].
  - rewrite app_nil_r. now destruct fig.
  - unfold update_current at 2. cbn [canvas stdout].
    rewrite IH. cbn. now rewrite <- app_assoc.
Qed.

(** A stretch of the loop in which iteration [i] draws the panel
    [panel_of i]. *)
Lemma for_each_panels (body : nat -> IO unit) (panel_of : nat -> Panel)
    (len a : nat) (w : World) :
  (forall i w', (a <= i < a + len)%nat ->
     body i w' = (Return tt, update_current (add_panel (panel_of i)) w')) ->
  for_each (seq a len) body w
  = (Return tt,
     fold_left (fun w p => update_current (add_panel p) w)
               (map panel_of (seq a len)) w).
Proof.
  revert a w. induction len as [| len IH]; intros a w Hbody; cbn; [reflexivity |].
  unfold io_bind. rewrite (Hbody a w) by lia.
  apply IH. intros i w' Hi. apply Hbody. lia.
Qed.

(** X9.  When every requested category is a column, every requested kind is in
    the enumeration, there is at least one category, the kind and title
    lists are at least as long as the category list, and the backend
    accepts the kinds that are used, [display] succeeds: it opens one
    figure with one axes per category, draws on axes [i] the counts of
    category [i] with kind [i] and title [i], lays the figure out and
    shows it.  Kinds and titles beyond the categories are not used, and
    nothing is printed. *)
Theorem display_draws_one_panel_per_category
    (df : DataFrame) (category kind title : list string) (w : World) :
  existsb (category_missing df) category = false ->
  existsb kind_invalid kind = false ->
  (1 <= List.length category)%nat ->
  (List.length category <= List.length kind)%nat ->
  (List.length category <= List.length title)%nat ->
  (forall i, (i < List.length category)%nat ->
     plot_refusal (nth i kind "")
       (panel_data (expected_panel df category kind title i)) = None) ->
  display df category kind title w
  = (Return tt,
     {| stdout := stdout w;
        canvas := expected_figure df category kind title :: canvas w |}).
Proof.
  intros Hcat Hkind Hpos Hk Ht Hplot. unfold display.
  change (fun k : string => negb (str_in k allowed_kinds)) with kind_invalid.
  change (fun cat : string => negb (str_in cat (columns df)))
    with (category_missing df).
  rewrite Hcat, Hkind.
  unfold expected_figure.
  remember (List.length category) as n eqn:En.
  set (w1 := {| stdout := stdout w;
                canvas := {| fig_axes := n; fig_size := (5 * Z.of_nat n, 4);
                             fig_panels := []; fig_tight := false;
                             fig_shown := false |} :: canvas w |}).
  assert (Hsub : subplots n (5 * Z.of_nat n, 4) w
                 = (Return (if Nat.eqb n 1 then Axes 0 else AxesArray (seq 0 n)), w1))
    by (unfold subplots; destruct n; [lia | reflexivity]).
  rewrite io_bind_run, Hsub.
  set (body := fun i : nat => _).
  rewrite io_bind_run.
  rewrite (for_each_panels body (expected_panel df category kind title) n 0 w1).
  - unfold w1. rewrite add_panels_current. reflexivity.
  - intros i w' Hi. unfold body.
    assert (Hc : list_index category i = Return (nth i category "")).
    { unfold list_index. rewrite (nth_error_nth' category "") by lia. reflexivity. }
    assert (Hki : list_index kind i = Return (nth i kind "")).
    { unfold list_index. rewrite (nth_error_nth' kind "") by lia. reflexivity. }
    assert (Hti : list_index title i = Return (nth i title "")).
    { unfold list_index. rewrite (nth_error_nth' title "") by lia. reflexivity. }
    assert (Hin : In (nth i category "") category) by (apply nth_In; lia).
    pose proof (existsb_false_all _ _ Hcat _ Hin) as Hpresent.
    unfold category_missing in Hpresent. apply negb_false_iff in Hpresent.
    destruct (lookup_of_str_in_columns _ _ Hpresent) as [col Hl].
    specialize (Hplot i ltac:(lia)).
    unfold expected_panel in *. cbn [panel_data] in Hplot. rewrite Hl in *.
    unfold io_bind, lift, getitem.
    rewrite Hc, Hl, Hki, (axes_index_in_range n i) by lia. rewrite Hti.
    unfold series_plot. rewrite Hplot. reflexivity.
Qed.

(** X10.  Without categories there is nothing to lay out: when the kinds pass
    validation, an empty category list makes [plt.subplots] raise
    ValueError.  The figure it had opened by then, of width 0 and without
    axes, stays on the canvas: nothing is drawn in it and it is not
    shown. *)
Theorem display_without_categories
    (df : DataFrame) (kind title : list string) (w : World) :
  existsb kind_invalid kind = false ->
  display df [] kind title w
  = (raise ValueError (Text "Number of columns must be a positive integer, not 0"),
     {| stdout := stdout w;
        canvas := {| fig_axes := 0; fig_size := (0, 4); fig_panels := [];
                     fig_tight := false; fig_shown := false |} :: canvas w |}).
Proof.
  intros Hkind. unfold display.
  change (fun k : string => negb (str_in k allowed_kinds)) with kind_invalid.
  rewrite Hkind. reflexivity.
Qed.

(** X11.  A missing category stops [display] before anything else: whatever the
    kinds and titles are, it raises the KeyError that lists the requested
    categories absent from the table, all of them and in request order, and
    the world is left as it was. *)
Theorem display_reports_missing_columns
    (df : DataFrame) (category kind title : list string) (w : World) :
  existsb (category_missing df) category = true ->
  display df category kind title w
  = (raise KeyError (ColumnsAbsent (filter (category_missing df) category)), w) /\
  filter (category_missing df) category <> [] /\
  forall cat, In cat (filter (category_missing df) category) <->
              In cat category /\ lookup_column df cat = None.
Proof.
  intros Hcat. split; [| split].
  - unfold display.
    change (fun cat : string => negb (str_in cat (columns df)))
      with (category_missing df).
    now rewrite Hcat.
  - apply existsb_exists in Hcat. destruct Hcat as (c & Hin & Hc).
    intros Hnil.
    assert (Hf : In c (filter (category_missing df) category))
      by (apply filter_In; auto).
    rewrite Hnil in Hf. destruct Hf.
  - intros cat. rewrite filter_In. unfold category_missing.
    split; intros [Hin H]; (split; [exact Hin |]).
    + apply negb_true_iff in H. now apply lookup_none_of_str_in_columns.
    + apply negb_true_iff. now apply str_in_false_of_lookup_none.
Qed.

End Drawing.

(** ** The generator *)

Section Generator.
Context `{RT : Runtime}.

Lemma date_range_periodic (start freq : string) (periods step t0 : Z) :
  to_offset freq = Return (Tick step) ->
  parse_datetime start = Return t0 ->
  0 <= periods ->
  forallb timestamp_in_bounds (periodic t0 step periods) = true ->
  date_range start periods freq = Return (periodic t0 step periods).
Proof.
  intros Hf Hs Hp Hb. unfold date_range. rewrite Hf, Hs. cbn [exc_bind].
  apply Z.ltb_ge in Hp. rewrite Hp.
  fold (periodic t0 step periods). now rewrite Hb.
Qed.

(** X12.  No exception leaves [create_periodic_dataframe], whatever the
    arguments: it returns a one-column table, printing nothing, when the
    range could be built, and [None] after printing one line when it could
    not.  It never touches the canvas. *)
Theorem create_periodic_dataframe_never_raises
    (start : string) (periods : Z) (freq : string) (w : World) :
  (exists ts,
     date_range start periods freq = Return ts /\
     create_periodic_dataframe start periods freq w
     = (Return (Some [("timestamp", DatetimeSeries ts)]), w))
  \/ (exists e,
        date_range start periods freq = Raised e /\
        create_periodic_dataframe start periods freq w
        = (Return None, logged e w) /\
        canvas (logged e w) = canvas w).
Proof.
  destruct (date_range start periods freq) as [ts | e] eqn:H.
  - left. exists ts. split; [reflexivity |].
    now apply create_periodic_dataframe_success.
  - right. exists e. split; [reflexivity |]. split; [| reflexivity].
    unfold create_periodic_dataframe, io_try, io_bind, lift.
    rewrite H. reflexivity.
Qed.

(** X13.  With a readable start, a frequency that is a step of fixed length
    (a number of hours, minutes, ...; not a calendar rule such as the week,
    which pandas anchors on a weekday), a count that is not negative and
    a range inside the representable timestamps, the generator returns the
    table of exactly [periods] rows whose row [i] is the start plus [i]
    steps.  The table is normalized, and the normalizer returns it as it
    is. *)
Theorem create_periodic_dataframe_table
    (start freq : string) (periods step t0 : Z) (w : World) :
  to_offset freq = Return (Tick step) ->
  parse_datetime start = Return t0 ->
  0 <= periods ->
  forallb timestamp_in_bounds (periodic t0 step periods) = true ->
  let df := [("timestamp", DatetimeSeries (periodic t0 step periods))] in
  create_periodic_dataframe start periods freq w = (Return (Some df), w) /\
  shape df = (Z.to_nat periods, 1%nat) /\
  (forall i, (i < Z.to_nat periods)%nat ->
     time_at df "timestamp" i = Some (t0 + Z.of_nat i * step)) /\
  normalized df /\
  convert_to_datetime df = Return df.
Proof.
  intros Hf Hs Hp Hb df.
  split; [apply create_periodic_dataframe_success;
          now apply (date_range_periodic start freq periods step t0) |].
  split; [unfold shape, df, periodic; cbn; now rewrite length_map, length_seq |].
  split.
  { intros i Hi. unfold time_at, df, periodic.
    cbn [lookup_column String.eqb Ascii.eqb Bool.eqb].
    rewrite nth_error_map.
    rewrite (nth_error_nth' (seq 0 (Z.to_nat periods)) 0%nat)
      by (rewrite length_seq; exact Hi).
    rewrite seq_nth by exact Hi. reflexivity. }
  split; [split; [repeat constructor | eexists; reflexivity] |].
  reflexivity.
Qed.

(** X14.  A range of fixed-length steps that leaves the representable
    timestamps is refused as a whole: the generator prints the failure and returns [None], not the
    part of the range that would fit. *)
Theorem create_periodic_dataframe_out_of_bounds
    (start freq : string) (periods step t0 : Z) (w : World) :
  to_offset freq = Return (Tick step) ->
  parse_datetime start = Return t0 ->
  forallb timestamp_in_bounds (periodic t0 step periods) = false ->
  exists e,
    exn_class_of e = OutOfBoundsDatetime /\
    create_periodic_dataframe start periods freq w = (Return None, logged e w).
Proof.
  intros Hf Hs Hb.
  assert (Hd : exists e, date_range start periods freq = Raised e /\
                         exn_class_of e = OutOfBoundsDatetime).
  { unfold date_range. rewrite Hf, Hs. cbn [exc_bind].
    destruct (periods <? 0) eqn:Hneg.
    - apply Z.ltb_lt in Hneg. unfold periodic in Hb.
      replace (Z.to_nat periods) with 0%nat in Hb by lia. discriminate Hb.
    - fold (periodic t0 step periods). rewrite Hb. eexists; split; reflexivity. }
  destruct Hd as (e & Hd & Hc). exists e. split; [exact Hc |].
  unfold create_periodic_dataframe, io_try, io_bind, lift.
  rewrite Hd. reflexivity.
Qed.

End Generator.

Lemma day_number_add_days (t n : Z) :
  day_number (t + n * ns_per_day) = day_number t + n.
Proof. unfold day_number. apply Z.div_add. discriminate. Qed.

(** X15.  Rows a whole number of weeks apart fall on the same weekday at the
    same hour: in a table of timestamps [7 k] days apart the weekday,
    weekday_name, hour and is_weekend columns are constant. *)
Theorem weekly_table_has_one_weekday (t0 k periods : Z) :
  let ts := periodic t0 (k * (7 * ns_per_day)) periods in
  extract_parts [("timestamp", DatetimeSeries ts)] = Return (derived_frame ts) /\
  forall i, (i < Z.to_nat periods)%nat ->
    int_at (derived_frame ts) "weekday" i = Some (ts_dayofweek t0) /\
    int_at (derived_frame ts) "hour" i = Some (ts_hour t0) /\
    str_at (derived_frame ts) "weekday_name" i
    = Some (substring 0 3 (ts_day_name t0)) /\
    int_at (derived_frame ts) "is_weekend" i
    = Some (if (ts_dayofweek t0 =? 5) || (ts_dayofweek t0 =? 6) then 1 else 0).
Proof.
  intros ts. split; [now apply extract_parts_normalized |].
  intros i Hi.
  assert (Et : nth_error ts i = Some (t0 + Z.of_nat i * (k * (7 * ns_per_day)))).
  { unfold ts, periodic. rewrite nth_error_map.
    rewrite (nth_error_nth' (seq 0 (Z.to_nat periods)) 0%nat)
      by (rewrite length_seq; exact Hi).
    rewrite seq_nth by exact Hi. reflexivity. }
  set (t := t0 + Z.of_nat i * (k * (7 * ns_per_day))) in *.
  assert (Hday : day_number t = day_number t0 + 7 * (Z.of_nat i * k)).
  { unfold t.
    replace (Z.of_nat i * (k * (7 * ns_per_day)))
      with (7 * (Z.of_nat i * k) * ns_per_day) by lia.
    apply day_number_add_days. }
  assert (Hwd : ts_dayofweek t = ts_dayofweek t0).
  { unfold ts_dayofweek. rewrite Hday.
    replace (day_number t0 + 7 * (Z.of_nat i * k) + 3)
      with (day_number t0 + 3 + (Z.of_nat i * k) * 7) by lia.
    apply Z.mod_add. discriminate. }
  assert (Hh : ts_hour t = ts_hour t0).
  { unfold ts_hour, t.
    replace (Z.of_nat i * (k * (7 * ns_per_day)))
      with (7 * (Z.of_nat i * k) * ns_per_day) by lia.
    rewrite Z.mod_add by discriminate. reflexivity. }
  unfold int_at, str_at.
  unfold derived_frame, astype_int, isin, cells.
  cbn [lookup_column String.eqb Ascii.eqb Bool.eqb].
  rewrite !nth_error_map, Et. cbn [option_map existsb scalar_eqb].
  unfold ts_day_name. rewrite Hwd, Hh, orb_false_r. repeat split.
Qed.

(** ** The two pipelines and the entry point *)

Section Pipelines.
Context `{RT : Runtime}.

(** The charts both pipelines ask for, on a table with a weekday_name
    column: a bar and a pie panel of its counts, in one figure.  A chart
    the backend refuses ends the run with the figure as it is by then. *)
Lemma display_weekday (result_df : DataFrame) (col : Series) (w : World) :
  lookup_column result_df "weekday_name" = Some col ->
  display result_df ["weekday_name"; "weekday_name"] ["bar"; "pie"]
          ["Activity Count by Day of Week"; "Days of the week"] w
  = match plot_refusal "bar" (value_counts col) with
    | Some e =>
        (Raised e,
         {| stdout := stdout w; canvas := weekday_figure_with [] :: canvas w |})
    | None =>
        match plot_refusal "pie" (value_counts col) with
        | Some e =>
            (Raised e,
             {| stdout := stdout w;
                canvas :=
                  weekday_figure_with
                    [expected_panel result_df ["weekday_name"; "weekday_name"]
                       ["bar"; "pie"]
                       ["Activity Count by Day of Week"; "Days of the week"] 0]
                  :: canvas w |})
        | None =>
            (Return tt,
             {| stdout := stdout w;
                canvas := weekday_panels result_df :: canvas w |})
        end
    end.
Proof.
  intros Hl.
  pose proof (str_in_columns_of_lookup _ _ _ Hl) as Hin.
  unfold display, weekday_panels, expected_figure, expected_panel,
    weekday_figure_with.
  cbn [existsb]. rewrite Hin. cbn [negb orb].
  change (existsb (fun k : string => negb (str_in k allowed_kinds)) ["bar"; "pie"])
    with false.
  cbn [List.length Nat.eqb seq map nth].
  unfold io_bind, lift, subplots, for_each, getitem, list_index, axes_index,
    series_plot, io_bind.
  cbn [nth_error exc_bind]. rewrite Hl. cbn [nth_error exc_bind].
  destruct (plot_refusal "bar" (value_counts col)) as [e |]; [reflexivity |].
  cbn [update_current canvas stdout add_panel fig_axes fig_size fig_panels
       fig_tight fig_shown app].
  destruct (plot_refusal "pie" (value_counts col)) as [e |]; reflexivity.
Qed.


(** X17.  [example_main_synthetic] end to end.  When the generator could not
    build its range it has printed the failure and returned [None]; the
    example passes that on, and the run ends with the AttributeError of
    reading [.columns] from [None], with no table printed and nothing
    drawn.  When the range is built, the run prints the derived table and,
    the backend drawing the bar and the pie chart of its weekday_name
    counts, shows the two panels. *)
Theorem example_main_synthetic_outcomes (w : World) :
  (forall e, date_range "2025-09-16 02:35:00" 15 "14h" = Raised e ->
     example_main_synthetic w
     = (raise AttributeError (Text "'NoneType' object has no attribute 'columns'"),
        logged e w)) /\
  (forall ts, date_range "2025-09-16 02:35:00" 15 "14h" = Return ts ->
     plot_refusal "bar" (weekday_counts (derived_frame ts)) = None ->
     plot_refusal "pie" (weekday_counts (derived_frame ts)) = None ->
     example_main_synthetic w
     = (Return tt,
        {| stdout := stdout w ++ [Table (derived_frame ts)];
           canvas := weekday_panels (derived_frame ts) :: canvas w |})).
Proof.
  split.
  - intros e H. unfold example_main_synthetic.
    rewrite io_bind_run.
    unfold create_periodic_dataframe, io_try, io_bind at 1, lift at 1.
    rewrite H. reflexivity.
  - intros ts H Hbar Hpie. unfold example_main_synthetic.
    rewrite io_bind_run.
    rewrite (create_periodic_dataframe_success _ _ _ ts w H).
    rewrite io_bind_run. unfold lift at 1.
    cbn [as_frame exc_bind].
    assert (Hc : convert_to_datetime [("timestamp", DatetimeSeries ts)]
                 = Return [("timestamp", DatetimeSeries ts)]) by reflexivity.
    rewrite Hc.
    rewrite io_bind_run. unfold lift at 1.
    rewrite (extract_parts_normalized [("timestamp", DatetimeSeries ts)] ts eq_refl).
    rewrite io_bind_run. unfold print at 1.
    rewrite (display_weekday (derived_frame ts) _ _ eq_refl).
    unfold weekday_counts in Hbar, Hpie.
    cbn [lookup_column derived_frame String.eqb Ascii.eqb Bool.eqb] in Hbar, Hpie.
    now rewrite Hbar, Hpie.
Qed.

(** X18.  The entry point with [--file].  A path that is the empty string is
    falsy: neither pipeline runs and the script ends silently.  Any other
    path runs the file pipeline, so a path that does not exist ends the run
    with FileNotFoundError before anything is printed or drawn. *)
Theorem script_main_file_argument (path : string) (w : World) :
  let args := {| example_synthetic := false; file := Some path |} in
  (path = "" -> script_main args w = (Return tt, w)) /\
  (path <> "" -> script_main args w = main_read_file path w) /\
  (path <> "" -> path_exists path = false ->
   script_main args w = (raise FileNotFoundError (FileMissing path), w)).
Proof.
  intros args. unfold script_main, args. cbn [example_synthetic file].
  split; [intros ->; reflexivity |].
  assert (Hne : path <> "" -> negb (String.eqb path "") = true).
  { intros H. apply negb_true_iff. now apply String.eqb_neq. }
  split.
  - intros H. now rewrite (Hne H).
  - intros H Hex. rewrite (Hne H).
    unfold main_read_file, io_bind, lift, load_dataframe_from_file.
    now rewrite Hex.
Qed.

End Pipelines.

(** ** The reference reader never parses dates *)

Lemma read_csv_text_no_datetime (content : string) (df : DataFrame) :
  read_csv_text content = Return df ->
  Forall (fun c => is_datetime64_any_dtype (snd c) = false) df.
Proof.
  unfold read_csv_text.
  destruct (map (split_on is_comma) _) as [| header rows]; [discriminate |].
  destruct (forallb _ rows); [| discriminate].
  intros [= <-]. apply Forall_forall. intros c Hin.
  apply in_map_iff in Hin. destruct Hin as (j & <- & _).
  apply infer_series_not_datetime.
Qed.


Lemma display_draws_one_panel_per_category_witness :
  @display (reference []) sample_derived ["weekday_name"] ["pie"; "bar"]
     ["Days"; "unused"] initial_world
  = (Return tt,
     {| stdout := [];
        canvas := [{| fig_axes := 1; fig_size := (5, 4);
                      fig_panels := [{| panel_axes := 0; panel_kind := "pie";
                                        panel_title := "Days";
                                        panel_data := [(SStr "Tue", 2%nat);
                                                       (SStr "Wed", 1%nat)] |}];
                      fig_tight := true; fig_shown := true |}] |}).
Proof.
  refine (@display_draws_one_panel_per_category (reference []) sample_derived
            ["weekday_name"] ["pie"; "bar"] ["Days"; "unused"] initial_world
            eq_refl eq_refl _ _ _ _); cbn [List.length]; try lia.
  intros i Hi. assert (i = 0)%nat as -> by lia. reflexivity.
Defined.

Lemma display_without_categories_witness :
  existsb kind_invalid ["bar"] = false /\
  @display (reference []) sample_derived [] ["bar"] ["Days"] initial_world
  = (raise ValueError (Text "Number of columns must be a positive integer, not 0"),
     {| stdout := [];
        canvas := [{| fig_axes := 0; fig_size := (0, 4); fig_panels := [];
                      fig_tight := false; fig_shown := false |}] |}).
Proof.
  split; [reflexivity |].
  exact (@display_without_categories (reference []) sample_derived ["bar"] ["Days"]
           initial_world eq_refl).
Defined.

Lemma display_reports_missing_columns_witness :
  @display (reference []) sample_derived ["month"; "weekday_name"; "year"]
     ["triangle"] [] initial_world
  = (raise KeyError (ColumnsAbsent ["month"; "year"]), initial_world).
Proof.
  exact (proj1 (@display_reports_missing_columns (reference []) sample_derived
                  ["month"; "weekday_name"; "year"] ["triangle"] [] initial_world
                  eq_refl)).
Defined.

Lemma create_periodic_dataframe_table_witness :
  @create_periodic_dataframe (reference []) "2025-09-16 02:35:00" 3 "14h"
     initial_world
  = (Return (Some [("timestamp",
                    DatetimeSeries (periodic 1757990100000000000 50400000000000 3))]),
     initial_world) /\
  periodic 1757990100000000000 50400000000000 3
  = [1757990100000000000; 1758040500000000000; 1758090900000000000].
Proof.
  split; [| reflexivity].
  exact (proj1 (@create_periodic_dataframe_table (reference [])
                  "2025-09-16 02:35:00" "14h" 3 50400000000000 1757990100000000000
                  initial_world eq_refl eq_refl ltac:(lia) eq_refl)).
Defined.

Lemma create_periodic_dataframe_out_of_bounds_witness :
  forallb timestamp_in_bounds (periodic 9223286400000000000 86400000000000 3) = false /\
  exists e,
    exn_class_of e = OutOfBoundsDatetime /\
    @create_periodic_dataframe (reference []) "2262-04-11 00:00:00" 3 "D"
       initial_world
    = (Return None, logged e initial_world).
Proof.
  split; [reflexivity |].
  apply (@create_periodic_dataframe_out_of_bounds (reference [])
           "2262-04-11 00:00:00" "D" 3 86400000000000 9223286400000000000);
    reflexivity.
Defined.

Lemma weekly_table_has_one_weekday_witness :
  int_at (derived_frame (periodic 1757990100000000000 (2 * (7 * ns_per_day)) 4))
         "weekday" 3
  = Some 1.
Proof.
  exact (proj1 (proj2 (weekly_table_has_one_weekday 1757990100000000000 2 4)
                      3%nat ltac:(cbn; lia))).
Defined.


Lemma example_main_synthetic_outcomes_witness :
  exists ts,
    @date_range (reference []) "2025-09-16 02:35:00" 15 "14h" = Return ts /\
    @example_main_synthetic (reference []) initial_world
    = (Return tt,
       {| stdout := [Table (derived_frame ts)];
          canvas := [@weekday_panels (reference []) (derived_frame ts)] |}).
Proof.
  eexists. split; [reflexivity |].
  exact (proj2 (@example_main_synthetic_outcomes (reference []) initial_world)
               _ eq_refl eq_refl eq_refl).
Defined.

Lemma script_main_file_argument_witness :
  @script_main (reference sample_files)
     {| example_synthetic := false; file := Some "" |} initial_world
  = (Return tt, initial_world) /\
  @script_main (reference sample_files)
     {| example_synthetic := false; file := Some "absent.csv" |} initial_world
  = (raise FileNotFoundError (FileMissing "absent.csv"), initial_world).
Proof.
  split.
  - exact (proj1 (@script_main_file_argument (reference sample_files) ""
                    initial_world) eq_refl).
  - refine (proj2 (proj2 (@script_main_file_argument (reference sample_files)
                            "absent.csv" initial_world)) _ eq_refl).
    discriminate.
Defined.


(** ** A file without a line of data *)

Lemma is_blank_plain (s : string) : is_blank s = true -> plain_text s = true.
Proof.
  induction s as [| c rest IH]; cbn; [reflexivity |].
  intros H. apply andb_true_iff in H. destruct H as [Hc Hrest].
  rewrite (IH Hrest), andb_true_r.
  apply orb_true_iff in Hc.
  destruct Hc as [Hc | Hc]; apply Ascii.eqb_eq in Hc; subst c; reflexivity.
Qed.

(** X22.  With the reference reader, a file that holds nothing but blank lines
    (or nothing at all) has no header line to take the column from: the
    loader raises ValueError, quoting the reader's EmptyDataError. *)
Theorem load_blank_file
    (files : list (string * string)) (path : string) (lines : list string) :
  file_lookup files path = Some (join_lines lines) ->
  Forall (fun l => is_blank l = true) lines ->
  @load_dataframe_from_file (reference files) path
  = raise ValueError
      (CsvReadFailed (Raise EmptyDataError (Text "No columns to parse from file"))).
Proof.
  intros Hfile Hblank.
  assert (Hread : read_csv_text (join_lines lines)
                  = raise EmptyDataError (Text "No columns to parse from file")).
  { destruct lines as [| l rest]; [reflexivity |].
    unfold read_csv_text. rewrite split_join_lines; [| discriminate |].
    - assert (Hf : filter (fun l0 => negb (is_blank l0)) (l :: rest) = []).
      { clear Hfile. induction Hblank as [| x xs Hx Hxs IH]; [reflexivity |].
        cbn. now rewrite Hx. }
      now rewrite Hf.
    - eapply Forall_impl; [| exact Hblank]. intros a. apply is_blank_plain. }
  unfold load_dataframe_from_file. cbn [path_exists read_csv reference].
  now rewrite Hfile, Hread.
Qed.

Lemma load_blank_file_witness :
  @load_dataframe_from_file (reference [("blank.csv", join_lines [""; "  "; ""])])
     "blank.csv"
  = raise ValueError
      (CsvReadFailed (Raise EmptyDataError (Text "No columns to parse from file"))).
Proof.
  apply (load_blank_file [("blank.csv", join_lines [""; "  "; ""])] "blank.csv"
           [""; "  "; ""]); [reflexivity | repeat constructor].
Defined.
